(** * pcap server: interface enumeration and live capture

    A shallow embedding of [server.go] (package [pcap]): the two gRPC
    handlers [InterfaceList] and [LiveCapture], together with the parts of
    the Go standard library ([net], [strings]) and of gopacket's [pcap]
    package that the handlers call.

    Conventions.
    - Go integers are [Z]; a conversion to a fixed width writes its
      wrap-around out ([uint32]).
    - A Go [error] is [option string]: [None] is [nil].
    - A Go slice is a [list]; the [nil] slice is [[]].
    - [string] is Rocq's [string]; a byte of it is an [ascii]. *)

From Stdlib Require Import ZArith List String Ascii Bool Lia.
Import ListNotations.

Local Open Scope string_scope.
Local Open Scope list_scope.
Local Open Scope Z_scope.

(** ** Go basics *)

Definition error := option string.

(** [uint32(x)] for an integer [x]: reduction modulo 2^32. *)
Definition uint32 (x : Z) : Z := x mod 2 ^ 32.

(** [byte(x)]: reduction modulo 2^8. *)
Definition byte (x : Z) : Z := x mod 2 ^ 8.

Definition is_nil {A} (l : list A) : bool :=
  match l with [] => true | _ => false end.

Definition ord (c : ascii) : Z := Z.of_N (N_of_ascii c).

Definition chr (z : Z) : ascii := ascii_of_N (Z.to_N z).

(** [s[i]] for a list used as an array, with the zero value out of range
    (the callers below stay in range). *)
Definition at_ (l : list Z) (i : nat) : Z := nth i l 0.

(** [l[i] = v] on a list used as an array. *)
Fixpoint set_ (l : list Z) (i : nat) (v : Z) : list Z :=
  match l, i with
  | [], _ => []
  | _ :: t, O => v :: t
  | h :: t, S j => h :: set_ t j v
  end.

(** ** Package [strings] *)

Module strings.

(** [Split(s, sep)] for a separator of one byte: the pieces of [s]
    between occurrences of [sep], never an empty slice. *)
Fixpoint Split (s : string) (sep : ascii) : list string :=
  match s with
  | EmptyString => [EmptyString]
  | String c rest =>
      if Ascii.eqb c sep then EmptyString :: Split rest sep
      else match Split rest sep with
           | [] => [String c EmptyString]
           | piece :: pieces => String c piece :: pieces
           end
  end.

End strings.

(** ** Package [net] (Go standard library) *)

Module net.

(** [type IP []byte]. *)
Definition IP := list Z.

Definition IPv4len : nat := 4.
Definition IPv6len : nat := 16.

Definition v4InV6Prefix : list Z := [0; 0; 0; 0; 0; 0; 0; 0; 0; 0; 255; 255].

(** [IPv4(a, b, c, d)]: the 16-byte form of an IPv4 address. *)
Definition IPv4 (a b c d : Z) : IP := v4InV6Prefix ++ [a; b; c; d].

Definition isZeros (p : list Z) : bool := forallb (Z.eqb 0) p.

(** [ip.To4()]: the 4-byte form of an IPv4 address, [nil] otherwise
    (in particular for the [nil] IP). *)
Definition To4 (ip : IP) : IP :=
  if Nat.eqb (List.length ip) IPv4len then ip
  else if Nat.eqb (List.length ip) IPv6len
          && isZeros (firstn 10 ip)
          && (at_ ip 10 =? 255) && (at_ ip 11 =? 255)
       then firstn 4 (skipn 12 ip)
       else [].

Definition big : Z := 16777215.

Definition isDigit (c : ascii) : bool := (ord "0" <=? ord c) && (ord c <=? ord "9").
Definition isLowerHex (c : ascii) : bool := (ord "a" <=? ord c) && (ord c <=? ord "f").
Definition isUpperHex (c : ascii) : bool := (ord "A" <=? ord c) && (ord c <=? ord "F").

(** The result of [dtoi] and [xtoi]: the number, the count of bytes
    consumed and the ok flag; [rest] is [s[i:]] for that count. *)
Record toi := mkToi { num : Z; used : nat; ok : bool; rest : string }.

(** [dtoi(s)]: decimal to integer, from the start of [s]. *)
Fixpoint dtoi_loop (n : Z) (i : nat) (s : string) : toi :=
  let finish :=
    match i with
    | O => mkToi 0 0 false s
    | _ => mkToi n i true s
    end in
  match s with
  | EmptyString => finish
  | String c s' =>
      if isDigit c then
        let n' := n * 10 + (ord c - ord "0") in
        if n' >=? big then mkToi big i false s
        else dtoi_loop n' (S i) s'
      else finish
  end.

Definition dtoi (s : string) : toi := dtoi_loop 0 0 s.

(** [xtoi(s)]: hexadecimal to integer, from the start of [s]. *)
Fixpoint xtoi_loop (n : Z) (i : nat) (s : string) : toi :=
  let finish :=
    match i with
    | O => mkToi 0 0 false s
    | _ => mkToi n i true s
    end in
  match s with
  | EmptyString => finish
  | String c s' =>
      let step (d : Z) :=
        let n' := n * 16 + d in
        if n' >=? big then mkToi 0 i false s
        else xtoi_loop n' (S i) s' in
      if isDigit c then step (ord c - ord "0")
      else if isLowerHex c then step (ord c - ord "a" + 10)
      else if isUpperHex c then step (ord c - ord "A" + 10)
      else finish
  end.

Definition xtoi (s : string) : toi := xtoi_loop 0 0 s.

Definition is_empty (s : string) : bool :=
  match s with EmptyString => true | _ => false end.

Definition starts_with (c : ascii) (s : string) : bool :=
  match s with String d _ => Ascii.eqb d c | EmptyString => false end.

Definition tail (s : string) : string :=
  match s with String _ t => t | EmptyString => EmptyString end.

(** [parseIPv4(s)]: four decimal fields of at most 255 separated by
    dots, and nothing after them; a field of more than one digit that
    starts with a zero is rejected. *)
Fixpoint parseIPv4_loop (fields : nat) (first : bool) (p : list Z) (s : string)
  : IP :=
  match fields with
  | O =>
      match s, p with
      | EmptyString, [a; b; c; d] => IPv4 a b c d
      | _, _ => []
      end
  | S fields' =>
      match s with
      | EmptyString => []
      | String c s' =>
          let after_dot :=
            if first then Some s
            else if Ascii.eqb c "." then Some s' else None in
          match after_dot with
          | None => []
          | Some s1 =>
              let r := dtoi s1 in
              if negb (ok r) || (num r >? 255) then []
              else if (1 <? used r)%nat && starts_with "0" s1 then []
              else parseIPv4_loop fields' false (p ++ [byte (num r)]) (rest r)
          end
      end
  end.

Definition parseIPv4 (s : string) : IP := parseIPv4_loop IPv4len true [] s.

(** The state of the loop of [parseIPv6]: the address being filled, the
    write position [i], the position of the ellipsis ([None] is the
    [-1] of the Go code) and the unread rest of the string. *)
Record v6state := mkV6 {
  v6_ip : list Z; v6_i : nat; v6_ellipsis : option nat; v6_s : string }.

(** The loop [for i < IPv6len] of [parseIPv6]; [None] is a [return nil]
    from inside the loop. Every pass that continues adds 2 to [i], so
    eight passes are all the loop can make. A group of more than four hex
    digits is rejected. *)
Fixpoint parseIPv6_loop (passes : nat) (st : v6state) : option v6state :=
  match passes with
  | O => Some st
  | S passes' =>
      let '(mkV6 ip i ellipsis s) := st in
      if negb (i <? IPv6len)%nat then Some st
      else
        let r := xtoi s in
        if negb (ok r) || (num r >? 65535) || (4 <? used r)%nat then None
        else if starts_with "." (rest r) then
          (* a trailing dotted IPv4 part *)
          if (match ellipsis with None => true | Some _ => false end)
             && negb (i =? IPv6len - IPv4len)%nat then None
          else if (IPv6len <? i + IPv4len)%nat then None
          else
            let ip4 := parseIPv4 s in
            if is_nil ip4 then None
            else
              let ip := set_ ip i (at_ ip4 12) in
              let ip := set_ ip (i + 1) (at_ ip4 13) in
              let ip := set_ ip (i + 2) (at_ ip4 14) in
              let ip := set_ ip (i + 3) (at_ ip4 15) in
              Some (mkV6 ip (i + IPv4len) ellipsis EmptyString)
        else
          (* save this 16-bit chunk *)
          let ip := set_ ip i (byte (Z.shiftr (num r) 8)) in
          let ip := set_ ip (i + 1) (byte (num r)) in
          let i := (i + 2)%nat in
          let s := rest r in
          if is_empty s then Some (mkV6 ip i ellipsis s)
          else if negb (starts_with ":" s) || (String.length s =? 1)%nat then None
          else
            let s := tail s in
            if starts_with ":" s then
              match ellipsis with
              | Some _ => None
              | None =>
                  let s := tail s in
                  if is_empty s then Some (mkV6 ip i (Some i) s)
                  else parseIPv6_loop passes' (mkV6 ip i (Some i) s)
              end
            else parseIPv6_loop passes' (mkV6 ip i ellipsis s)
  end.

(** [parseIPv6(s)] without zone. The two loops that expand the ellipsis
    move [ip[ellipsis:i]] to the end and zero the gap. *)
Definition parseIPv6 (s : string) : IP :=
  let ip := repeat 0 IPv6len in
  let leading := starts_with ":" s && starts_with ":" (tail s) in
  let ellipsis := if leading then Some O else None in
  let s := if leading then tail (tail s) else s in
  if leading && is_empty s then ip
  else
    match parseIPv6_loop 8 (mkV6 ip 0 ellipsis s) with
    | None => []
    | Some (mkV6 ip i ellipsis s) =>
        if negb (is_empty s) then []
        else if (i <? IPv6len)%nat then
          match ellipsis with
          | None => []
          | Some e =>
              firstn e ip ++ repeat 0 (IPv6len - i) ++ firstn (i - e) (skipn e ip)
          end
        else
          match ellipsis with
          | Some _ => []
          | None => ip
          end
    end.

(** [ParseIP(s)]: the first dot or colon of [s] decides between the two
    parsers; [nil] when [s] has neither or the parser rejects it. *)
Fixpoint ParseIP_scan (whole : string) (s : string) : IP :=
  match s with
  | EmptyString => []
  | String c s' =>
      if Ascii.eqb c "." then parseIPv4 whole
      else if Ascii.eqb c ":" then parseIPv6 whole
      else ParseIP_scan whole s'
  end.

Definition ParseIP (s : string) : IP := ParseIP_scan s s.

(** [type HardwareAddr []byte] and its [String()]: lower-case hex bytes
    separated by colons, the empty string for the empty address. *)
Definition HardwareAddr := list Z.

Definition hexDigit (n : Z) : ascii :=
  if n <? 10 then chr (ord "0" + n) else chr (ord "a" + (n - 10)).

Fixpoint HardwareAddr_String_from (i : nat) (a : HardwareAddr) : string :=
  match a with
  | [] => EmptyString
  | b :: a' =>
      let two :=
        String (hexDigit (Z.shiftr b 4))
               (String (hexDigit (Z.land b 15)) (HardwareAddr_String_from (S i) a')) in
      match i with
      | O => two
      | _ => String ":" two
      end
  end.

Definition HardwareAddr_String (a : HardwareAddr) : string :=
  HardwareAddr_String_from 0 a.

(** [type Addr interface]: the handler only reads [addr.String()]. *)
Record Addr := mkAddr { Addr_String : string }.

(** [type Interface struct], with the answer of the host to the
    [Addrs()] query of this interface: the slice and the error. *)
Record Interface := mkInterface {
  Name : string;
  Flags : Z;
  HardwareAddr_ : HardwareAddr;
  Addrs : list Addr * error }.

End net.

(** ** Package [api]: the wire records *)

Module api.

Record Address := mkAddress { Value : string }.

Record Interface := mkInterface {
  Name : string;
  Up : bool;
  EthernetAddresses : list Address;
  Ipv4Addresses : list Address;
  Ipv6Addresses : list Address }.

Record InterfaceListRequest := mkInterfaceListRequest { All : bool }.

Record InterfaceListReply := mkInterfaceListReply {
  Success : bool;
  Interfaces : list Interface }.

Record CaptureRequest := mkCaptureRequest {
  Interface_ : string;
  Filter : string;
  Snaplen : Z;
  BufferSizeBytes : Z;
  PromiscuousMode : bool;
  RfMonitor : bool;
  ImmediateMode : bool;
  TimeoutNanoseconds : Z }.

Record PacketData := mkPacketData {
  Seconds : Z;
  Microseconds : Z;
  OriginalLength : Z;
  Data : list Z }.

End api.

(** ** [InterfaceList] *)

(** [unix.IFF_UP]. *)
Definition IFF_UP : Z := 1.

(** [isUp := iface.Flags&unix.IFF_UP != 0]. *)
Definition isUp (iface : net.Interface) : bool :=
  negb (Z.land (net.Flags iface) IFF_UP =? 0).

(** [address := strings.Split(addr.String(), "/")[0]]. *)
Definition address_of (addr : net.Addr) : string :=
  hd EmptyString (strings.Split (net.Addr_String addr) "/").

(** [resultInterface.Ipv4Addresses = append(resultInterface.Ipv4Addresses,
    &api.Address{Value: address})], and the same for IPv6. *)
Definition append_Ipv4Addresses (r : api.Interface) (address : string) : api.Interface :=
  api.mkInterface (api.Name r) (api.Up r) (api.EthernetAddresses r)
    (api.Ipv4Addresses r ++ [api.mkAddress address]) (api.Ipv6Addresses r).

Definition append_Ipv6Addresses (r : api.Interface) (address : string) : api.Interface :=
  api.mkInterface (api.Name r) (api.Up r) (api.EthernetAddresses r)
    (api.Ipv4Addresses r) (api.Ipv6Addresses r ++ [api.mkAddress address]).

(** The test [ip.To4() != nil] on [ip := net.ParseIP(address)]. *)
Definition has_To4 (address : string) : bool :=
  negb (is_nil (net.To4 (net.ParseIP address))).

(** The body of the loop [for _, addr := range addrs]. *)
Definition InterfaceList_addr (resultInterface : api.Interface) (addr : net.Addr)
  : api.Interface :=
  let address := address_of addr in
  if has_To4 address then
    (* Found an IPv4 address. *)
    append_Ipv4Addresses resultInterface address
  else
    (* Found an IPv6 address. *)
    append_Ipv6Addresses resultInterface address.

(** The [resultInterface] of one host interface: the record with its one
    hardware address, then the loop over [addrs, _ := iface.Addrs()]. *)
Definition resultInterface_of (iface : net.Interface) : api.Interface :=
  let resultInterface :=
    api.mkInterface (net.Name iface) (isUp iface)
      [api.mkAddress (net.HardwareAddr_String (net.HardwareAddr_ iface))]
      [] [] in
  let addrs := fst (net.Addrs iface) in
  fold_left InterfaceList_addr addrs resultInterface.

(** The body of the loop [for _, iface := range interfaces]. *)
Definition InterfaceList_iface (in_ : api.InterfaceListRequest)
  (resultInterfaces : list api.Interface) (iface : net.Interface)
  : list api.Interface :=
  if negb (isUp iface || api.All in_) then
    resultInterfaces (* continue *)
  else
    resultInterfaces ++ [resultInterface_of iface].

(** [func (s *server) InterfaceList(ctx, in)], given what
    [net.Interfaces()] answers on this host. *)
Definition InterfaceList (host : list net.Interface * error)
  (in_ : api.InterfaceListRequest) : api.InterfaceListReply * error :=
  let result := api.mkInterfaceListReply false [] in
  let '(interfaces, err) := host in
  match err with
  | Some _ => (result, None)
  | None =>
      let resultInterfaces := fold_left (InterfaceList_iface in_) interfaces [] in
      (api.mkInterfaceListReply true resultInterfaces, None)
  end.

(** ** Packages [time] and [gopacket]: what a read hands back *)

Module time.

(** [time.Time] as the handler reads it: [Unix()] and [Nanosecond()],
    the latter in the range [0, 999999999]. *)
Record Time := mkTime { Unix : Z; Nanosecond : Z }.

Definition valid (t : Time) : Prop := 0 <= Nanosecond t <= 999999999.

End time.

Module gopacket.

Record CaptureInfo := mkCaptureInfo {
  Timestamp : time.Time;
  CaptureLength : Z;
  Length : Z }.

End gopacket.

(** [type packetData struct]. *)
Record packetData := mkPacket {
  data : list Z;
  ci : gopacket.CaptureInfo;
  err : error }.

(** The [api.PacketData] literal that [LiveCapture] builds from a read
    packet. The product is a [uint32] product, so it wraps. *)
Definition framePacket (p : packetData) : api.PacketData :=
  api.mkPacketData
    (time.Unix (gopacket.Timestamp (ci p)))
    (uint32 (uint32 (time.Nanosecond (gopacket.Timestamp (ci p))) * 1000))
    (uint32 (gopacket.Length (ci p)))
    (data p).

(** ** The handler as a computation over the capture library *)

(** What the handler does to the outside, in order: calls into gopacket's
    [pcap], the C resource behind a handle ([pcap_create], [pcap_close]),
    records sent on the stream, and the one log line that reports a
    refused monitor mode (other log output is left out). *)
Inductive Event :=
| CallNewInactiveHandle (device : string)
| CallSetImmediateMode (mode : bool)
| CallSetSnapLen (snaplen : Z)
| CallSetBufferSize (bufferSize : Z)
| CallSetPromisc (promisc : bool)
| CallSetRFMon (monitor : bool)
| CallSetTimeout (timeout : Z)
| CallActivate
| CallSetBPFFilter (expr : string)
| CallReadPacketData
| CallClose
| CallCleanUp
| pcap_create
| pcap_close
| StreamSend (reply : api.PacketData)
| LogPrintf (line : string).

(** The options staged on an inactive handle; [None] is "never set". *)
Record Options := mkOptions {
  opt_immediate : option bool;
  opt_snaplen : option Z;
  opt_buffer : option Z;
  opt_promisc : option bool;
  opt_rfmon : option bool;
  opt_timeout : option Z }.

(** A pointer to the one [*InactiveHandle] or [*Handle] of a call. *)
Inductive ptr := nilptr | object.

(** A [defer] statement with its receiver, evaluated when deferred. *)
Inductive Deferred :=
| DeferCleanUp (inactiveHandle : ptr)
| DeferClose (handle : ptr).

(** The reading goroutine: [idle] when no call of [ReadPacketData] is
    outstanding (none was started, or the result of the last one was
    received from the [packet] channel), [reading returns] when one is,
    with whether that call returns within the observed run of the world.
    The call holds the lock of the handle until it returns. *)
Inductive Reader := idle | reading (returns : bool).

(** The state of one call of [LiveCapture]. [inactive_cptr] and
    [handle_cptr] say which Go object holds the C resource. *)
Record State := mkState {
  trace : list Event;
  inactive_cptr : bool;
  handle_cptr : bool;
  options : Options;
  deferred : list Deferred;
  reader : Reader }.

Definition initial : State :=
  mkState [] false false (mkOptions None None None None None None) [] idle.

(** How a function body stops: a [return], a panic, a [select] that is
    still waiting when the observed run of the world ends, or a deferred
    [Close] that is still waiting for the outstanding read at that point. *)
Inductive Exit :=
| Return (e : error)
| Panic
| Waiting
| Closing.

Definition M (A : Type) : Type := State -> (A + Exit) * State.

Definition ret {A} (a : A) : M A := fun s => (inl a, s).

Definition bind {A B} (c : M A) (k : A -> M B) : M B :=
  fun s =>
    match c s with
    | (inl a, s') => k a s'
    | (inr x, s') => (inr x, s')
    end.

Definition exit {A} (x : Exit) : M A := fun s => (inr x, s).

Declare Scope go_scope.
Delimit Scope go_scope with go.
Notation "x <- c ;; k" := (bind c (fun x => k))
  (at level 61, c at next level, right associativity) : go_scope.
Notation "c ;; k" := (bind c (fun _ => k))
  (at level 61, right associativity) : go_scope.
Notation "' pat <- c ;; k" := (bind c (fun x => match x with pat => k end))
  (at level 61, pat pattern, c at next level, right associativity) : go_scope.
Local Open Scope go_scope.

Definition emit (e : Event) : M unit :=
  fun s => (inl tt, mkState (trace s ++ [e]) (inactive_cptr s) (handle_cptr s)
                            (options s) (deferred s) (reader s)).

(** [defer d]: push on the stack of deferred calls. *)
Definition defer (d : Deferred) : M unit :=
  fun s => (inl tt, mkState (trace s) (inactive_cptr s) (handle_cptr s)
                            (options s) (d :: deferred s) (reader s)).

(** [if err != nil { return err }]. *)
Definition return_if (err : error) : M unit :=
  match err with
  | Some e => exit (Return (Some e))
  | None => ret tt
  end.

(** Reading a field through a receiver: a nil receiver panics. *)
Definition deref (p : ptr) : M unit :=
  match p with
  | nilptr => exit Panic
  | object => ret tt
  end.

Definition stage (f : Options -> Options) : M unit :=
  fun s => (inl tt, mkState (trace s) (inactive_cptr s) (handle_cptr s)
                            (f (options s)) (deferred s) (reader s)).

Definition set_cptrs (inactive handle : bool) : M unit :=
  fun s => (inl tt, mkState (trace s) inactive handle (options s) (deferred s)
                            (reader s)).

Definition set_reader (r : Reader) : M unit :=
  fun s => (inl tt, mkState (trace s) (inactive_cptr s) (handle_cptr s)
                            (options s) (deferred s) r).

Definition get_state : M State := fun s => (inl s, s).

(** ** Package [pcap] of gopacket, as [LiveCapture] uses it

    The library is outside this repository. Its calls are modelled by
    what they do to the state above; what the capture device answers to
    each call is an input (the [World] below). Three facts of the library
    matter: a constructor that fails returns a nil pointer with its error;
    [Activate] moves the C resource from the inactive handle to the new
    handle, so that [CleanUp] afterwards finds nothing to close; every
    method reads a field of its receiver, so a nil receiver panics; and
    [Close] takes the lock that a call of [ReadPacketData] holds until it
    returns, so [Close] waits for an outstanding read. *)

Module pcap.

(** [NewInactiveHandle(device)]; [answer] is the error of [pcap_create]. *)
Definition NewInactiveHandle (answer : error) (device : string) : M (ptr * error) :=
  emit (CallNewInactiveHandle device) ;;
  match answer with
  | Some e => ret (nilptr, Some e)
  | None =>
      emit pcap_create ;;
      set_cptrs true false ;;
      ret (object, None)
  end.

(** A setter of [*InactiveHandle]: on success the option is staged. *)
Definition setter (p : ptr) (call : Event) (f : Options -> Options)
  (answer : error) : M error :=
  emit call ;;
  deref p ;;
  match answer with
  | Some e => ret (Some e)
  | None => stage f ;; ret None
  end.

Definition SetImmediateMode (p : ptr) (mode : bool) : error -> M error :=
  setter p (CallSetImmediateMode mode)
    (fun o => mkOptions (Some mode) (opt_snaplen o) (opt_buffer o)
                        (opt_promisc o) (opt_rfmon o) (opt_timeout o)).

Definition SetSnapLen (p : ptr) (snaplen : Z) : error -> M error :=
  setter p (CallSetSnapLen snaplen)
    (fun o => mkOptions (opt_immediate o) (Some snaplen) (opt_buffer o)
                        (opt_promisc o) (opt_rfmon o) (opt_timeout o)).

Definition SetBufferSize (p : ptr) (bufferSize : Z) : error -> M error :=
  setter p (CallSetBufferSize bufferSize)
    (fun o => mkOptions (opt_immediate o) (opt_snaplen o) (Some bufferSize)
                        (opt_promisc o) (opt_rfmon o) (opt_timeout o)).

Definition SetPromisc (p : ptr) (promisc : bool) : error -> M error :=
  setter p (CallSetPromisc promisc)
    (fun o => mkOptions (opt_immediate o) (opt_snaplen o) (opt_buffer o)
                        (Some promisc) (opt_rfmon o) (opt_timeout o)).

Definition SetRFMon (p : ptr) (monitor : bool) : error -> M error :=
  setter p (CallSetRFMon monitor)
    (fun o => mkOptions (opt_immediate o) (opt_snaplen o) (opt_buffer o)
                        (opt_promisc o) (Some monitor) (opt_timeout o)).

Definition SetTimeout (p : ptr) (timeout : Z) : error -> M error :=
  setter p (CallSetTimeout timeout)
    (fun o => mkOptions (opt_immediate o) (opt_snaplen o) (opt_buffer o)
                        (opt_promisc o) (opt_rfmon o) (Some timeout)).

(** [p.Activate()]: on success the new handle takes the C resource. *)
Definition Activate (p : ptr) (answer : error) : M (ptr * error) :=
  emit CallActivate ;;
  deref p ;;
  match answer with
  | Some e => ret (nilptr, Some e)
  | None => set_cptrs false true ;; ret (object, None)
  end.

(** [handle.SetBPFFilter(expr)]: compile the expression and attach it. *)
Definition SetBPFFilter (h : ptr) (expr : string) (answer : error) : M error :=
  emit (CallSetBPFFilter expr) ;;
  deref h ;;
  ret answer.

(** [handle.ReadPacketData()], as started by the reading goroutine; its
    result arrives through the [packet] channel. [returns] is the answer
    of the device: whether the call returns within the observed run. *)
Definition ReadPacketData (h : ptr) (returns : bool) : M unit :=
  emit CallReadPacketData ;;
  deref h ;;
  set_reader (reading returns).

(** [handle.Close()]: waits until the outstanding read, if any, has
    returned, then closes the C resource. *)
Definition Close (h : ptr) : M unit :=
  emit CallClose ;;
  deref h ;;
  s <- get_state ;;
  match reader s with
  | reading false => exit Closing
  | _ =>
      if handle_cptr s then
        emit pcap_close ;; set_cptrs (inactive_cptr s) false
      else ret tt
  end.

(** [inactiveHandle.CleanUp()]: closes only if [cptr] is still held. *)
Definition CleanUp (p : ptr) : M unit :=
  emit CallCleanUp ;;
  deref p ;;
  s <- get_state ;;
  if inactive_cptr s then emit pcap_close else ret tt.

End pcap.

(** ** The world of one capture session *)

(** What the [select] of one iteration picks. *)
Inductive Selected :=
| recv_shuttingDown (running : bool)
    (* [case _, running := <-shuttingDown]; the channel is only ever
       closed, which is [running = false] *)
| recv_Done
    (* [case <-stream.Context().Done()] *)
| recv_packet (p : packetData) (sent : error).
    (* [case p := <-packet], and what [stream.Send] answers if reached *)

(** The answers of the device and of the client to one session. *)
Record World := mkWorld {
  w_NewInactiveHandle : error;
  w_SetImmediateMode : error;
  w_SetSnapLen : error;
  w_SetBufferSize : error;
  w_SetPromisc : error;
  w_SetRFMon : error;
  w_SetTimeout : error;
  w_Activate : error;
  w_SetBPFFilter : error;
  w_select : list Selected }.

Definition is_recv_packet (sel : Selected) : bool :=
  match sel with recv_packet _ _ => true | _ => false end.

(** Whether a read that is started now returns within the observed run:
    it does when a result of a read is among what is still to come. After
    the selection that makes the loop return, what is still to come is
    what the [packet] channel would have carried, had the loop gone on. *)
Definition read_returns (selections : list Selected) : bool :=
  existsb is_recv_packet selections.

(** ** [LiveCapture] *)

(** The [for] loop. Every iteration starts one read in a goroutine and
    then selects; when the observed selections run out the loop is left
    waiting in its [select]. A result taken from the [packet] channel is
    the result of the read of this iteration, which has then returned. *)
Fixpoint capture_loop (handle : ptr) (selections : list Selected) : M unit :=
  pcap.ReadPacketData handle (read_returns selections) ;;
  match selections with
  | [] => exit Waiting
  | recv_shuttingDown running :: later =>
      if negb running then exit (Return None)
      else capture_loop handle later
  | recv_Done :: _ => exit (Return None)
  | recv_packet p sent :: later =>
      set_reader idle ;;
      return_if (err p) ;;
      emit (StreamSend (framePacket p)) ;;
      return_if sent ;;
      capture_loop handle later
  end.

(** The statements of [LiveCapture] before its loop; the value is the
    activated [handle]. *)
Definition LiveCapture_open (w : World) (in_ : api.CaptureRequest) : M ptr :=
  '(inactiveHandle, err) <- pcap.NewInactiveHandle (w_NewInactiveHandle w)
                                                   (api.Interface_ in_) ;;
  defer (DeferCleanUp inactiveHandle) ;;
  return_if err ;;
  err <- pcap.SetImmediateMode inactiveHandle (api.ImmediateMode in_)
                               (w_SetImmediateMode w) ;;
  return_if err ;;
  err <- pcap.SetSnapLen inactiveHandle (api.Snaplen in_) (w_SetSnapLen w) ;;
  return_if err ;;
  let bufferSize := api.BufferSizeBytes in_ in
  let bufferSize := if bufferSize =? 0 then 1024 * 1024 * 4 else bufferSize in
  err <- pcap.SetBufferSize inactiveHandle bufferSize (w_SetBufferSize w) ;;
  return_if err ;;
  err <- pcap.SetPromisc inactiveHandle (api.PromiscuousMode in_) (w_SetPromisc w) ;;
  return_if err ;;
  err <- pcap.SetRFMon inactiveHandle (api.RfMonitor in_) (w_SetRFMon w) ;;
  match err with
  | Some e => emit (LogPrintf (api.Interface_ in_ ++ ": " ++ e))
  | None => ret tt
  end ;;
  err <- pcap.SetTimeout inactiveHandle (api.TimeoutNanoseconds in_)
                         (w_SetTimeout w) ;;
  return_if err ;;
  '(handle, err) <- pcap.Activate inactiveHandle (w_Activate w) ;;
  err <- (if (0 <? String.length (api.Filter in_))%nat then
            err <- pcap.SetBPFFilter handle (api.Filter in_) (w_SetBPFFilter w) ;;
            return_if err ;;
            ret err
          else ret err) ;;
  defer (DeferClose handle) ;;
  return_if err ;;
  ret handle.

(** The statements of [LiveCapture], without the deferred calls. *)
Definition LiveCapture_body (w : World) (in_ : api.CaptureRequest) : M unit :=
  handle <- LiveCapture_open w in_ ;;
  capture_loop handle (w_select w).

Definition run_deferred_call (d : Deferred) : M unit :=
  match d with
  | DeferCleanUp p => pcap.CleanUp p
  | DeferClose h => pcap.Close h
  end.

(** Run the deferred calls, last deferred first. A deferred call that
    panics turns the exit into a panic; the calls deferred before it
    still run. A deferred [Close] that is left waiting holds the function
    where it is. *)
Fixpoint run_deferred (ds : list Deferred) (x : Exit) (s : State) : Exit * State :=
  match ds with
  | [] => (x, s)
  | d :: ds' =>
      match run_deferred_call d s with
      | (inl _, s') => run_deferred ds' x s'
      | (inr Closing, s') => (Closing, s')
      | (inr _, s') => run_deferred ds' Panic s'
      end
  end.

(** [func (s *server) LiveCapture(in, stream) error]: the body, then the
    deferred calls unless the function is still waiting in its loop. The
    exit is [Closing] when the deferred [Close] is left waiting. *)
Definition LiveCapture (w : World) (in_ : api.CaptureRequest) : Exit * State :=
  let '(r, s) := LiveCapture_body w in_ initial in
  match r with
  | inl _ => run_deferred (deferred s) (Return None) s
  | inr Waiting => (Waiting, s)
  | inr x => run_deferred (deferred s) x s
  end.

(** ** Observations on a finished or waiting session *)

Definition is_pcap_create (e : Event) : bool :=
  match e with pcap_create => true | _ => false end.

Definition is_pcap_close (e : Event) : bool :=
  match e with pcap_close => true | _ => false end.

Definition is_read (e : Event) : bool :=
  match e with CallReadPacketData => true | _ => false end.

Definition is_SetBPFFilter (e : Event) : bool :=
  match e with CallSetBPFFilter _ => true | _ => false end.

Definition is_Close (e : Event) : bool :=
  match e with CallClose => true | _ => false end.


(** How often the C resource was acquired and released. *)
Definition acquisitions (t : list Event) : nat := List.length (filter is_pcap_create t).
Definition releases (t : list Event) : nat := List.length (filter is_pcap_close t).

(** How many reads were started. *)
Definition reads (t : list Event) : nat := List.length (filter is_read t).

(** The records sent on the stream, in order. *)
Fixpoint sent_records (t : list Event) : list api.PacketData :=
  match t with
  | [] => []
  | StreamSend r :: t' => r :: sent_records t'
  | _ :: t' => sent_records t'
  end.




(** ** Sample requests, packets and worlds *)

Definition request_eth0 (filter : string) : api.CaptureRequest :=
  api.mkCaptureRequest "eth0" filter 65535 0 true false true 0.

(** A world in which every call succeeds, with the given selections. *)
Definition calm (selections : list Selected) : World :=
  mkWorld None None None None None None None None None selections.

(** The world [w] after the [select] has picked [more]. *)
Definition later_on (w : World) (more : list Selected) : World :=
  mkWorld (w_NewInactiveHandle w) (w_SetImmediateMode w) (w_SetSnapLen w)
          (w_SetBufferSize w) (w_SetPromisc w) (w_SetRFMon w) (w_SetTimeout w)
          (w_Activate w) (w_SetBPFFilter w) (w_select w ++ more).

(** The three calls of a teardown that releases the live handle. *)
Definition teardown : list Event := [CallClose; pcap_close; CallCleanUp].

(** A packet stamped [sec] seconds and [nsec] nanoseconds. *)
Definition packet_at (sec nsec : Z) : packetData :=
  mkPacket [222; 173; 190; 239]
           (gopacket.mkCaptureInfo (time.mkTime sec nsec) 4 60) None.

Definition failed_read (e : string) : packetData :=
  mkPacket [] (gopacket.mkCaptureInfo (time.mkTime 0 0) 0 0) (Some e).

(** A host interface that is up, with the given addresses and no error
    from the address query. *)
Definition eth0_with (addrs : list string) : net.Interface :=
  net.mkInterface "eth0" 69 [0; 17; 34; 171; 205; 239] (map net.mkAddr addrs, None).

(** A down interface whose address query fails. *)
Definition wlan0_failing : net.Interface :=
  net.mkInterface "wlan0" 4098 [2; 0; 0; 0; 0; 1] ([], Some "route ip+net: netlinkrib: too many open files").

(** Whether the loop over the host interfaces keeps [iface]. *)
Definition listed (in_ : api.InterfaceListRequest) (iface : net.Interface) : bool :=
  isUp iface || api.All in_.

(** The events of the loop, and the events of the loop and the teardown. *)
Definition stream_event (e : Event) : bool :=
  match e with
  | CallReadPacketData | StreamSend _ => true
  | _ => false
  end.

Definition late_event (e : Event) : bool :=
  match e with
  | CallReadPacketData | StreamSend _ | CallClose | pcap_close | CallCleanUp => true
  | _ => false
  end.


(** A world in which the filter does not compile. *)
Definition filter_rejected : World :=
  mkWorld None None None None None None None None (Some "syntax error") [].

(** A world in which [Activate] fails. *)
Definition activation_refused : World :=
  mkWorld None None None None None None None
          (Some "eth0: You don't have permission to capture on that device")
          None [].

(** ** Further observations *)

(** Whether the byte [c] occurs in [s]. *)
Fixpoint contains (c : ascii) (s : string) : bool :=
  match s with
  | EmptyString => false
  | String d s' => Ascii.eqb d c || contains c s'
  end.

(** What a listed interface shows besides its IP addresses. *)
Definition heading (r : api.Interface) : string * bool * list api.Address :=
  (api.Name r, api.Up r, api.EthernetAddresses r).

Definition heading_of (iface : net.Interface) : string * bool * list api.Address :=
  (net.Name iface, isUp iface,
   [api.mkAddress (net.HardwareAddr_String (net.HardwareAddr_ iface))]).

(** All IP address texts of a listed interface. *)
Definition listed_texts (r : api.Interface) : list string :=
  map api.Value (api.Ipv4Addresses r ++ api.Ipv6Addresses r).

Definition is_Activate (e : Event) : bool :=
  match e with CallActivate => true | _ => false end.

Definition is_LogPrintf (e : Event) : bool :=
  match e with LogPrintf _ => true | _ => false end.

Definition is_none {A} (o : option A) : bool :=
  match o with None => true | Some _ => false end.

(** The error of the first setter whose failure makes [LiveCapture]
    return, in the order of the statements; the monitor mode is not
    among them. *)
Definition first_setting_error (w : World) : error :=
  match w_SetImmediateMode w, w_SetSnapLen w, w_SetBufferSize w,
        w_SetPromisc w, w_SetTimeout w with
  | Some e, _, _, _, _ => Some e
  | None, Some e, _, _, _ => Some e
  | None, None, Some e, _, _ => Some e
  | None, None, None, Some e, _ => Some e
  | None, None, None, None, e => e
  end.

(** The world [w] with a device that accepts the monitor-mode request. *)
Definition rfmon_accepted (w : World) : World :=
  mkWorld (w_NewInactiveHandle w) (w_SetImmediateMode w) (w_SetSnapLen w)
          (w_SetBufferSize w) (w_SetPromisc w) None (w_SetTimeout w)
          (w_Activate w) (w_SetBPFFilter w) (w_select w).

(** The request [in_] with another buffer size. *)
Definition with_BufferSizeBytes (in_ : api.CaptureRequest) (n : Z) : api.CaptureRequest :=
  api.mkCaptureRequest (api.Interface_ in_) (api.Filter in_) (api.Snaplen in_) n
    (api.PromiscuousMode in_) (api.RfMonitor in_) (api.ImmediateMode in_)
    (api.TimeoutNanoseconds in_).

(** A read that succeeded and whose record the stream accepted. *)
Definition delivered (p : packetData) : Selected := recv_packet p None.

(** The events and the exit of the loop after its first read has been
    started, as a function of the selections alone; [capture_loop_selected]
    below proves that this is what [capture_loop] does. *)
Fixpoint selected (sels : list Selected) : list Event * Exit :=
  match sels with
  | [] => ([], Waiting)
  | recv_shuttingDown running :: later =>
      if negb running then ([], Return None)
      else (CallReadPacketData :: fst (selected later), snd (selected later))
  | recv_Done :: _ => ([], Return None)
  | recv_packet p sent :: later =>
      match err p, sent with
      | Some e, _ => ([], Return (Some e))
      | None, Some e => ([StreamSend (framePacket p)], Return (Some e))
      | None, None =>
          (StreamSend (framePacket p) :: CallReadPacketData :: fst (selected later),
           snd (selected later))
      end
  end.

(** The reading goroutine when the loop is left or left waiting, as a
    function of the selections alone: after a signal the read of that
    iteration is outstanding, after a result from the [packet] channel
    none is. *)
Fixpoint reader_after (sels : list Selected) : Reader :=
  match sels with
  | [] => reading false
  | recv_shuttingDown running :: later =>
      if negb running then reading (read_returns later)
      else reader_after later
  | recv_Done :: later => reading (read_returns later)
  | recv_packet p sent :: later =>
      match err p, sent with
      | None, None => reader_after later
      | _, _ => idle
      end
  end.

(** The call of [Close] that is left waiting for the outstanding read. *)
Definition close_waits : list Event := [CallClose].

(** What a call makes of the result of its statements before the loop:
    the loop and the teardown when the loop is reached, the deferred calls
    when it is not; [LiveCapture_finish] below proves that [LiveCapture]
    is this. *)
Definition finish (r : (ptr + Exit) * State) (sels : list Selected) : Exit * State :=
  match r with
  | (inl _, s0) =>
      match snd (selected sels), reader_after sels with
      | Waiting, r =>
          (Waiting,
           mkState (trace s0 ++ CallReadPacketData :: fst (selected sels))
                   false true (options s0)
                   [DeferClose object; DeferCleanUp object] r)
      | _, reading false =>
          (Closing,
           mkState (trace s0 ++ (CallReadPacketData :: fst (selected sels))
                            ++ close_waits)
                   false true (options s0)
                   [DeferClose object; DeferCleanUp object] (reading false))
      | x, r =>
          (x,
           mkState (trace s0 ++ (CallReadPacketData :: fst (selected sels))
                            ++ teardown)
                   false false (options s0)
                   [DeferClose object; DeferCleanUp object] r)
      end
  | (inr x, s0) => run_deferred (deferred s0) x s0
  end.

(** Every event but the log line. *)
Definition not_log (e : Event) : bool := negb (is_LogPrintf e).

(** The events of a run of reads that all succeeded and were sent: each
    record, then the next read. *)
Definition delivery_events (ps : list packetData) : list Event :=
  flat_map (fun p => [StreamSend (framePacket p); CallReadPacketData]) ps.

(** * Interface enumeration *)

Section InterfaceCatalog.

Variable in_ : api.InterfaceListRequest.

(** The loop over the addresses appends to the two lists and leaves the
    rest of the record alone. *)
Lemma addr_loop_fields (addrs : list net.Addr) (r : api.Interface) :
  let r' := fold_left InterfaceList_addr addrs r in
  api.Name r' = api.Name r /\
  api.Up r' = api.Up r /\
  api.EthernetAddresses r' = api.EthernetAddresses r /\
  api.Ipv4Addresses r' =
    api.Ipv4Addresses r
    ++ map api.mkAddress (filter has_To4 (map address_of addrs)) /\
  api.Ipv6Addresses r' =
    api.Ipv6Addresses r
    ++ map api.mkAddress
         (filter (fun a => negb (has_To4 a)) (map address_of addrs)).
Proof.
  revert r. induction addrs as [|addr addrs IH]; intros r; cbn zeta.
  - cbn. now rewrite !app_nil_r.
  - cbn [fold_left map filter].
    destruct (IH (InterfaceList_addr r addr)) as (Hn & Hu & He & H4 & H6).
    rewrite Hn, Hu, He, H4, H6. unfold InterfaceList_addr.
    destruct (has_To4 (address_of addr)); cbn;
      rewrite <- ?app_assoc; cbn; auto.
Qed.

(** The loop over the interfaces keeps the listed ones, in order. *)
Lemma iface_loop (interfaces : list net.Interface) (acc : list api.Interface) :
  fold_left (InterfaceList_iface in_) interfaces acc =
  acc ++ map resultInterface_of (filter (listed in_) interfaces).
Proof.
  revert acc. induction interfaces as [|iface interfaces IH]; intros acc.
  - cbn. now rewrite app_nil_r.
  - cbn [fold_left filter]. rewrite IH. unfold InterfaceList_iface, listed.
    destruct (isUp iface || api.All in_); cbn; [|reflexivity].
    now rewrite <- app_assoc.
Qed.

Lemma InterfaceList_ok (interfaces : list net.Interface) :
  InterfaceList (interfaces, None) in_ =
  (api.mkInterfaceListReply true
     (map resultInterface_of (filter (listed in_) interfaces)), None).
Proof. unfold InterfaceList. now rewrite iface_loop. Qed.

(** An interface whose address query returned no address. *)
Lemma resultInterface_of_no_addrs (iface : net.Interface) :
  fst (net.Addrs iface) = [] ->
  resultInterface_of iface =
  api.mkInterface (net.Name iface) (isUp iface)
    [api.mkAddress (net.HardwareAddr_String (net.HardwareAddr_ iface))] [] [].
Proof. intros H. unfold resultInterface_of. now rewrite H. Qed.

End InterfaceCatalog.

(** An address that does not parse takes the [else] branch. *)
Lemma unparseable_is_appended_to_ipv6 (r : api.Interface) (addr : net.Addr) :
  net.ParseIP (address_of addr) = [] ->
  InterfaceList_addr r addr = append_Ipv6Addresses r (address_of addr).
Proof.
  intros H. unfold InterfaceList_addr, has_To4. now rewrite H.
Qed.

(** C8. If the host interface query fails, the reply is success = false
    with no interfaces and no error is raised; if it succeeds, the reply is
    success = true with no error, and its interfaces are those that pass
    the up/all test, which may be none: when no interface passes, the
    list is empty and success is still true. *)
Theorem C8_host_query_soft_failure :
  (forall interfaces e in_,
      InterfaceList (interfaces, Some e) in_
      = (api.mkInterfaceListReply false [], None)) /\
  (forall interfaces in_,
      api.Success (fst (InterfaceList (interfaces, None) in_)) = true /\
      snd (InterfaceList (interfaces, None) in_) = None /\
      api.Interfaces (fst (InterfaceList (interfaces, None) in_))
      = map resultInterface_of (filter (listed in_) interfaces)) /\
  InterfaceList ([wlan0_failing], None) (api.mkInterfaceListRequest false)
  = (api.mkInterfaceListReply true [], None).
Proof.
  split; [|split].
  - reflexivity.
  - intros interfaces in_. rewrite InterfaceList_ok. cbn. auto.
  - reflexivity.
Qed.

(** C9. ["192.168.1.5"] is appended to the IPv4 list as it is, ["fe80::1"]
    to the IPv6 list, ["10.0.0.1/24"] to the IPv4 list as ["10.0.0.1"];
    and the two lists of an interface are the addresses of the host, with
    the suffix stripped, that pass respectively fail the [To4] test, in the
    order of discovery. *)
Theorem C9_address_classification :
  (forall r, InterfaceList_addr r (net.mkAddr "192.168.1.5")
             = append_Ipv4Addresses r "192.168.1.5") /\
  (forall r, InterfaceList_addr r (net.mkAddr "fe80::1")
             = append_Ipv6Addresses r "fe80::1") /\
  (forall r, InterfaceList_addr r (net.mkAddr "10.0.0.1/24")
             = append_Ipv4Addresses r "10.0.0.1") /\
  (forall iface,
      api.Ipv4Addresses (resultInterface_of iface)
      = map api.mkAddress
          (filter has_To4 (map address_of (fst (net.Addrs iface)))) /\
      api.Ipv6Addresses (resultInterface_of iface)
      = map api.mkAddress
          (filter (fun a => negb (has_To4 a))
                  (map address_of (fst (net.Addrs iface))))) /\
  api.Interfaces
    (fst (InterfaceList
            ([eth0_with ["192.168.1.5"; "fe80::1"; "10.0.0.1/24"]], None)
            (api.mkInterfaceListRequest false)))
  = [api.mkInterface "eth0" true [api.mkAddress "00:11:22:ab:cd:ef"]
       [api.mkAddress "192.168.1.5"; api.mkAddress "10.0.0.1"]
       [api.mkAddress "fe80::1"]].
Proof.
  split; [|split; [|split; [|split]]].
  - intros r. unfold InterfaceList_addr.
    change (address_of (net.mkAddr "192.168.1.5")) with "192.168.1.5".
    now replace (has_To4 "192.168.1.5") with true by (vm_compute; reflexivity).
  - intros r. unfold InterfaceList_addr.
    change (address_of (net.mkAddr "fe80::1")) with "fe80::1".
    now replace (has_To4 "fe80::1") with false by (vm_compute; reflexivity).
  - intros r. unfold InterfaceList_addr.
    change (address_of (net.mkAddr "10.0.0.1/24")) with "10.0.0.1".
    now replace (has_To4 "10.0.0.1") with true by (vm_compute; reflexivity).
  - intros iface. unfold resultInterface_of.
    destruct (addr_loop_fields (fst (net.Addrs iface))
      (api.mkInterface (net.Name iface) (isUp iface)
         [api.mkAddress (net.HardwareAddr_String (net.HardwareAddr_ iface))]
         [] [])) as (_ & _ & _ & H4 & H6).
    split; assumption.
  - vm_compute. reflexivity.
Qed.

(** C10. An interface that is queried for its addresses (it is up, or all
    interfaces were asked for) and whose query fails, returning an error
    and no address as Go's [net] package does, is in the reply with its one
    hardware-address entry and empty IPv4 and IPv6 lists; the reply is
    success = true and no error is returned. *)
Theorem C10_address_query_failure_ignored
  (before after : list net.Interface) (iface : net.Interface)
  (in_ : api.InterfaceListRequest) (e : string) :
  listed in_ iface = true ->
  net.Addrs iface = ([], Some e) ->
  let reply := InterfaceList (before ++ iface :: after, None) in_ in
  api.Success (fst reply) = true /\
  snd reply = None /\
  In (api.mkInterface (net.Name iface) (isUp iface)
        [api.mkAddress (net.HardwareAddr_String (net.HardwareAddr_ iface))]
        [] [])
     (api.Interfaces (fst reply)).
Proof.
  intros Hlisted Hq reply. subst reply. rewrite InterfaceList_ok. cbn [fst snd].
  repeat split.
  cbn [api.Interfaces]. rewrite filter_app, map_app. apply in_or_app. right.
  cbn [filter]. rewrite Hlisted. cbn [map]. left.
  apply resultInterface_of_no_addrs. now rewrite Hq.
Qed.

Lemma C10_address_query_failure_ignored_witness :
  let reply := InterfaceList ([eth0_with ["192.168.1.5"]] ++ wlan0_failing :: [], None)
                             (api.mkInterfaceListRequest true) in
  api.Success (fst reply) = true /\
  snd reply = None /\
  In (api.mkInterface "wlan0" false [api.mkAddress "02:00:00:00:00:01"] [] [])
     (api.Interfaces (fst reply)).
Proof.
  exact (C10_address_query_failure_ignored
           [eth0_with ["192.168.1.5"]] [] wlan0_failing
           (api.mkInterfaceListRequest true)
           "route ip+net: netlinkrib: too many open files"
           eq_refl eq_refl).
Defined.

(** C4 (the code differs). The text ["<nil>"] does not parse, and the
    handler lists it among the IPv6 addresses of the interface, between
    the addresses that do parse. *)
Theorem C4_unparseable_address_listed_as_ipv6 :
  net.ParseIP (address_of (net.mkAddr "<nil>")) = [] /\
  api.Interfaces
    (fst (InterfaceList
            ([eth0_with ["192.168.1.5/24"; "<nil>"; "fe80::1/64"]], None)
            (api.mkInterfaceListRequest false)))
  = [api.mkInterface "eth0" true [api.mkAddress "00:11:22:ab:cd:ef"]
       [api.mkAddress "192.168.1.5"]
       [api.mkAddress "<nil>"; api.mkAddress "fe80::1"]].
Proof. split; vm_compute; reflexivity. Qed.

(** * Packet framing *)

(** The microseconds field is the nanosecond count times 1000, wrapped
    to 32 bits. *)
Lemma framePacket_Microseconds (p : packetData) :
  time.valid (gopacket.Timestamp (ci p)) ->
  api.Microseconds (framePacket p)
  = (time.Nanosecond (gopacket.Timestamp (ci p)) * 1000) mod 2 ^ 32.
Proof.
  unfold time.valid, framePacket, uint32. cbn [api.Microseconds]. intros H.
  rewrite (Z.mod_small (time.Nanosecond _)) by lia. reflexivity.
Qed.

(** C1 (the code differs). A packet stamped 1000 ns after the second, that
    is one microsecond, is sent with the microseconds field 1000000, which
    is outside [0, 999999] and is not the truncated value 1. *)
Theorem C1_microseconds_field_is_multiplied :
  let p := packet_at 5 1000 in
  let session := LiveCapture (calm [recv_packet p None]) (request_eth0 "") in
  time.valid (gopacket.Timestamp (ci p)) /\
  sent_records (trace (snd session)) = [framePacket p] /\
  api.Microseconds (framePacket p) = 1000000 /\
  ~ (0 <= api.Microseconds (framePacket p) <= 999999) /\
  api.Microseconds (framePacket p)
  <> time.Nanosecond (gopacket.Timestamp (ci p)) / 1000.
Proof.
  cbv zeta. split; [|split; [|split; [|split]]].
  - unfold time.valid. cbn. lia.
  - vm_compute. reflexivity.
  - vm_compute. reflexivity.
  - replace (api.Microseconds (framePacket (packet_at 5 1000))) with 1000000
      by (vm_compute; reflexivity). lia.
  - vm_compute. discriminate.
Qed.

(** * The capture session *)

(** ** Traces *)

Lemma sent_records_app (t u : list Event) :
  sent_records (t ++ u) = sent_records t ++ sent_records u.
Proof.
  induction t as [|e t IH]; [reflexivity|].
  destruct e; cbn; rewrite IH; reflexivity.
Qed.

(** A filter that rejects the late events sees nothing of a run of them. *)
Lemma filter_late (f : Event -> bool) (evs : list Event) :
  (forall e, late_event e = true -> f e = false) ->
  forallb late_event evs = true ->
  filter f evs = [].
Proof.
  intros Hf. induction evs as [|e evs IH]; [reflexivity|].
  cbn. intros H. apply andb_true_iff in H as [He Hevs].
  rewrite (Hf e He). auto.
Qed.

Lemma stream_event_late (evs : list Event) :
  forallb stream_event evs = true -> forallb late_event evs = true.
Proof.
  induction evs as [|e evs IH]; [reflexivity|].
  cbn. intros H. apply andb_true_iff in H as [He Hevs].
  rewrite IH by assumption. destruct e; try discriminate; reflexivity.
Qed.

Lemma stream_event_no_release (evs : list Event) :
  forallb stream_event evs = true -> filter is_pcap_close evs = [].
Proof.
  induction evs as [|e evs IH]; [reflexivity|].
  cbn. intros H. apply andb_true_iff in H as [He Hevs].
  destruct e; try discriminate; cbn; auto.
Qed.

(** ** The loop *)

Lemma read_object (returns : bool) (s : State) :
  pcap.ReadPacketData object returns s
  = (inl tt, mkState (trace s ++ [CallReadPacketData]) (inactive_cptr s)
                     (handle_cptr s) (options s) (deferred s) (reading returns)).
Proof. reflexivity. Qed.

Lemma capture_loop_unfold (h : ptr) (sels : list Selected) :
  capture_loop h sels =
  (pcap.ReadPacketData h (read_returns sels) ;;
   match sels with
   | [] => exit Waiting
   | recv_shuttingDown running :: later =>
       if negb running then exit (Return None)
       else capture_loop h later
   | recv_Done :: _ => exit (Return None)
   | recv_packet p sent :: later =>
       set_reader idle ;;
       return_if (err p) ;;
       emit (StreamSend (framePacket p)) ;;
       return_if sent ;;
       capture_loop h later
   end).
Proof. destruct sels; reflexivity. Qed.

(** The loop on a live handle: its exit, its events and the reading
    goroutine it leaves are those of [selected] and [reader_after]; it
    touches nothing else. *)
Lemma capture_loop_selected (sels : list Selected) :
  forall s,
    capture_loop object sels s
    = (inr (snd (selected sels)),
       mkState (trace s ++ CallReadPacketData :: fst (selected sels))
               (inactive_cptr s) (handle_cptr s) (options s) (deferred s)
               (reader_after sels)).
Proof.
  induction sels as [|a sels IH]; intros s;
    rewrite capture_loop_unfold; unfold bind; rewrite read_object.
  - reflexivity.
  - destruct a as [[|]| |p sent]; cbn [selected reader_after negb].
    + rewrite IH. cbn. now rewrite <- app_assoc.
    + reflexivity.
    + reflexivity.
    + unfold bind. cbn [set_reader]. destruct (err p); [reflexivity|]. cbn.
      destruct sent; [cbn; now rewrite <- app_assoc|].
      cbn. rewrite IH. cbn. now rewrite <- !app_assoc.
Qed.

Lemma selected_no_panic (sels : list Selected) : snd (selected sels) <> Panic.
Proof.
  induction sels as [|a sels IH]; [discriminate|].
  destruct a as [[|]| |p sent]; cbn; try discriminate; try assumption.
  destruct (err p); [discriminate|]. destruct sent; [discriminate|assumption].
Qed.

Lemma selected_not_closing (sels : list Selected) : snd (selected sels) <> Closing.
Proof.
  induction sels as [|a sels IH]; [discriminate|].
  destruct a as [[|]| |p sent]; cbn; try discriminate; try assumption.
  destruct (err p); [discriminate|]. destruct sent; [discriminate|assumption].
Qed.

(** A loop that is left waiting has its last read outstanding. *)
Lemma selected_waiting_reader (sels : list Selected) :
  snd (selected sels) = Waiting -> reader_after sels = reading false.
Proof.
  induction sels as [|a sels IH]; [reflexivity|].
  destruct a as [[|]| |p sent]; cbn; try discriminate; try assumption.
  destruct (err p); [discriminate|]. destruct sent; [discriminate|assumption].
Qed.

(** Selections after a run that was left waiting continue that run. *)
Lemma selected_app (pre more : list Selected) :
  snd (selected pre) = Waiting ->
  selected (pre ++ more)
  = (fst (selected pre) ++ fst (selected more), snd (selected more)).
Proof.
  induction pre as [|a pre IH]; intros H.
  - cbn. now destruct (selected more).
  - destruct a as [[|]| |p sent]; cbn in H |- *; try discriminate.
    + now rewrite IH.
    + destruct (err p); [discriminate|]. destruct sent; [discriminate|].
      cbn in H |- *. now rewrite IH.
Qed.

Lemma reader_after_app (pre more : list Selected) :
  snd (selected pre) = Waiting ->
  reader_after (pre ++ more) = reader_after more.
Proof.
  induction pre as [|a pre IH]; intros H; [reflexivity|].
  destruct a as [[|]| |p sent]; cbn in H |- *; try discriminate.
  - now apply IH.
  - destruct (err p); [discriminate|]. destruct sent; [discriminate|].
    now apply IH.
Qed.

(** The events of the loop are reads and sends. *)
Lemma selected_stream_events (sels : list Selected) :
  forallb stream_event (fst (selected sels)) = true.
Proof.
  induction sels as [|a sels IH]; [reflexivity|].
  destruct a as [[|]| |p sent]; cbn; try reflexivity; try assumption.
  destruct (err p); [reflexivity|]. destruct sent; [reflexivity|]. cbn. assumption.
Qed.

(** ** The statements before the loop *)

Lemma open_later_on (w : World) (more : list Selected) (in_ : api.CaptureRequest) :
  LiveCapture_open (later_on w more) in_ = LiveCapture_open w in_.
Proof. reflexivity. Qed.

Ltac unfold_open :=
  unfold LiveCapture_open, pcap.NewInactiveHandle, pcap.SetImmediateMode,
    pcap.SetSnapLen, pcap.SetBufferSize, pcap.SetPromisc, pcap.SetRFMon,
    pcap.SetTimeout, pcap.Activate, pcap.SetBPFFilter, pcap.setter;
  cbn [w_NewInactiveHandle w_SetImmediateMode w_SetSnapLen w_SetBufferSize
       w_SetPromisc w_SetRFMon w_SetTimeout w_Activate w_SetBPFFilter].

(** When the loop is reached the live handle holds the C resource, which
    was acquired once and not yet released, and both deferred calls are
    registered; when it is not reached the function does not wait. *)
Lemma open_result (w : World) (in_ : api.CaptureRequest) r s :
  LiveCapture_open w in_ initial = (r, s) ->
  match r with
  | inl h =>
      h = object /\
      deferred s = [DeferClose object; DeferCleanUp object] /\
      inactive_cptr s = false /\ handle_cptr s = true /\
      acquisitions (trace s) = 1%nat /\ releases (trace s) = 0%nat
  | inr x => x <> Waiting
  end.
Proof.
  destruct w as [a b c d e f g h i sels]. unfold_open. intros H.
  destruct (0 <? String.length (api.Filter in_))%nat;
    destruct a, b, c, d, e, f, g, h, i; cbn in H; inversion H; subst; cbn;
    try discriminate; repeat split; reflexivity.
Qed.


(** ** The deferred calls *)

Lemma run_deferred_frame (ds : list Deferred) :
  forall x s x' s',
    run_deferred ds x s = (x', s') ->
    (x' = x \/ x' = Panic \/ x' = Closing) /\
    options s' = options s /\
    exists evs, trace s' = trace s ++ evs /\ forallb late_event evs = true.
Proof.
  induction ds as [|d ds IH]; intros x s x' s' H.
  - cbn in H. inversion H; subst. split; [auto|]. split; [reflexivity|].
    exists []. now rewrite app_nil_r.
  - cbn [run_deferred] in H.
    destruct (run_deferred_call d s) as [r s1] eqn:Hd.
    assert (Hs1 : options s1 = options s /\
                  exists evs, trace s1 = trace s ++ evs
                              /\ forallb late_event evs = true).
    { destruct d as [[|]|[|]]; cbn in Hd;
        try (inversion Hd; subst; cbn; split; [reflexivity|eexists; split; reflexivity]).
      - unfold bind in Hd. cbn in Hd.
        destruct (inactive_cptr s); cbn in Hd; inversion Hd; subst; cbn;
          (split; [reflexivity|]); [|eexists; split; reflexivity].
        exists [CallCleanUp; pcap_close]. now rewrite <- app_assoc.
      - unfold bind in Hd. cbn in Hd.
        destruct (reader s) as [|[|]]; cbn in Hd;
          try (inversion Hd; subst; cbn; split;
               [reflexivity|eexists; split; reflexivity]);
          (destruct (handle_cptr s); cbn in Hd; inversion Hd; subst; cbn;
           (split; [reflexivity|]); [|eexists; split; reflexivity];
           exists [CallClose; pcap_close]; now rewrite <- app_assoc). }
    destruct Hs1 as (Ho1 & evs1 & Ht1 & Hevs1).
    destruct r as [u|[e| | |]].
    + apply IH in H as (Hx' & Ho & evs & Ht & Hevs).
      split; [assumption|]. split; [congruence|].
      exists (evs1 ++ evs). rewrite Ht, Ht1, app_assoc, forallb_app, Hevs1, Hevs. auto.
    + apply IH in H as (Hx' & Ho & evs & Ht & Hevs).
      split; [destruct Hx' as [->|[->| ->]]; auto|]. split; [congruence|].
      exists (evs1 ++ evs). rewrite Ht, Ht1, app_assoc, forallb_app, Hevs1, Hevs. auto.
    + apply IH in H as (Hx' & Ho & evs & Ht & Hevs).
      split; [destruct Hx' as [->|[->| ->]]; auto|]. split; [congruence|].
      exists (evs1 ++ evs). rewrite Ht, Ht1, app_assoc, forallb_app, Hevs1, Hevs. auto.
    + apply IH in H as (Hx' & Ho & evs & Ht & Hevs).
      split; [destruct Hx' as [->|[->| ->]]; auto|]. split; [congruence|].
      exists (evs1 ++ evs). rewrite Ht, Ht1, app_assoc, forallb_app, Hevs1, Hevs. auto.
    + inversion H; subst. split; [auto|]. split; [assumption|]. eauto.
Qed.

(** ** The whole call *)

(** A call that reaches its loop: what the loop did, then the teardown
    unless the loop is still waiting; the teardown stops in [Close] when
    the outstanding read does not return. *)
Lemma LiveCapture_through_loop (w : World) (in_ : api.CaptureRequest) h s0 :
  LiveCapture_open w in_ initial = (inl h, s0) ->
  LiveCapture w in_ = finish (inl h, s0) (w_select w).
Proof.
  intros Hopen.
  pose proof (open_result _ _ _ _ Hopen) as (-> & Hd & Hi & Hh & _).
  unfold LiveCapture, LiveCapture_body, bind, finish.
  rewrite Hopen, capture_loop_selected.
  destruct s0 as [t ic hc o ds rd]. cbn in Hd, Hi, Hh. subst ic hc ds.
  pose proof (selected_waiting_reader (w_select w)) as Hw.
  destruct (snd (selected (w_select w))) eqn:Hx.
  - destruct (reader_after (w_select w)) as [|[|]]; cbn;
      rewrite <- ?app_assoc; reflexivity.
  - destruct (reader_after (w_select w)) as [|[|]]; cbn;
      rewrite <- ?app_assoc; reflexivity.
  - reflexivity.
  - now destruct (selected_not_closing (w_select w)).
Qed.

(** A call that does not reach its loop runs its deferred calls. *)
Lemma LiveCapture_without_loop (w : World) (in_ : api.CaptureRequest) x s0 :
  LiveCapture_open w in_ initial = (inr x, s0) ->
  LiveCapture w in_ = run_deferred (deferred s0) x s0.
Proof.
  intros Hopen. pose proof (open_result _ _ _ _ Hopen) as Hx.
  unfold LiveCapture, LiveCapture_body, bind. rewrite Hopen.
  destruct x; congruence.
Qed.

Lemma LiveCapture_finish (w : World) (in_ : api.CaptureRequest) :
  LiveCapture w in_ = finish (LiveCapture_open w in_ initial) (w_select w).
Proof.
  destruct (LiveCapture_open w in_ initial) as [[h|x] s0] eqn:Hopen.
  - apply (LiveCapture_through_loop _ _ _ _ Hopen).
  - apply (LiveCapture_without_loop _ _ _ _ Hopen).
Qed.



(** A call found waiting has passed the statements before the loop and
    waits in the [select] of its loop, with its last read outstanding. *)
Lemma LiveCapture_waiting (w : World) (in_ : api.CaptureRequest) (s : State) :
  LiveCapture w in_ = (Waiting, s) ->
  exists s0,
    LiveCapture_open w in_ initial = (inl object, s0) /\
    snd (selected (w_select w)) = Waiting /\
    s = mkState (trace s0 ++ CallReadPacketData :: fst (selected (w_select w)))
                false true (options s0)
                [DeferClose object; DeferCleanUp object] (reading false).
Proof.
  rewrite LiveCapture_finish.
  destruct (LiveCapture_open w in_ initial) as [[h|x] s0] eqn:Hopen; cbn [finish].
  - pose proof (open_result _ _ _ _ Hopen) as (-> & _).
    pose proof (selected_waiting_reader (w_select w)) as Hw.
    destruct (snd (selected (w_select w)));
      destruct (reader_after (w_select w)) as [|[|]]; intros H;
      try discriminate H; try (discriminate (Hw eq_refl)).
    injection H as <-. eauto.
  - pose proof (open_result _ _ _ _ Hopen) as Hx. intros H.
    apply run_deferred_frame in H as ([H|[H|H]] & _); congruence.
Qed.

(** A session found waiting goes on with the next selections as the loop
    does from there: their events are added to the trace, and the teardown
    follows if they end the loop; the teardown stops in [Close] when the
    outstanding read does not return. *)
Lemma LiveCapture_resume (w : World) (in_ : api.CaptureRequest)
  (more : list Selected) (s : State) :
  LiveCapture w in_ = (Waiting, s) ->
  LiveCapture (later_on w more) in_
  = match snd (selected more), reader_after more with
    | Waiting, r =>
        (Waiting,
         mkState (trace s ++ fst (selected more))
                 false true (options s) (deferred s) r)
    | _, reading false =>
        (Closing,
         mkState (trace s ++ fst (selected more) ++ close_waits)
                 false true (options s) (deferred s) (reading false))
    | x, r =>
        (x,
         mkState (trace s ++ fst (selected more) ++ teardown)
                 false false (options s) (deferred s) r)
    end.
Proof.
  intros Hwait.
  destruct (LiveCapture_waiting _ _ _ Hwait) as (s0 & Hopen & Hx & ->).
  assert (Hopen' : LiveCapture_open (later_on w more) in_ initial = (inl object, s0))
    by (now rewrite open_later_on).
  rewrite (LiveCapture_through_loop _ _ _ _ Hopen'). unfold finish.
  change (w_select (later_on w more)) with (w_select w ++ more).
  rewrite (selected_app _ more Hx), (reader_after_app _ more Hx).
  cbn [fst snd trace options deferred].
  destruct (snd (selected more));
    destruct (reader_after more) as [|[|]];
    rewrite <- ?app_assoc; cbn [app]; rewrite <- ?app_assoc; reflexivity.
Qed.

(** C2 (the code differs). When the filter does not compile, the call
    returns the filter error before [handle.Close] is deferred: the C
    resource was acquired once, the live handle still holds it when the
    call has returned, [Close] was never called and nothing was released. *)
Theorem C2_filter_failure_leaves_handle_open :
  let session := LiveCapture filter_rejected (request_eth0 "tcp and (") in
  fst session = Return (Some "syntax error") /\
  acquisitions (trace (snd session)) = 1%nat /\
  releases (trace (snd session)) = 0%nat /\
  filter is_Close (trace (snd session)) = [] /\
  handle_cptr (snd session) = true /\
  trace (snd session)
  = [CallNewInactiveHandle "eth0"; pcap_create; CallSetImmediateMode true;
     CallSetSnapLen 65535; CallSetBufferSize 4194304; CallSetPromisc true;
     CallSetRFMon false; CallSetTimeout 0; CallActivate;
     CallSetBPFFilter "tcp and ("; CallCleanUp].
Proof. cbv zeta. repeat split; vm_compute; reflexivity. Qed.

(** C3 (the code differs). When [Activate] fails and a filter was given,
    the handler goes on to call [SetBPFFilter] on the nil handle, which
    panics; with no filter the deferred [Close] on the nil handle panics.
    In neither case is the activation error returned. *)
Theorem C3_activation_failure_is_not_returned :
  let with_filter := LiveCapture activation_refused (request_eth0 "tcp") in
  let without_filter := LiveCapture activation_refused (request_eth0 "") in
  fst with_filter = Panic /\
  trace (snd with_filter)
  = [CallNewInactiveHandle "eth0"; pcap_create; CallSetImmediateMode true;
     CallSetSnapLen 65535; CallSetBufferSize 4194304; CallSetPromisc true;
     CallSetRFMon false; CallSetTimeout 0; CallActivate;
     CallSetBPFFilter "tcp"; CallCleanUp; pcap_close] /\
  fst without_filter = Panic /\
  trace (snd without_filter)
  = [CallNewInactiveHandle "eth0"; pcap_create; CallSetImmediateMode true;
     CallSetSnapLen 65535; CallSetBufferSize 4194304; CallSetPromisc true;
     CallSetRFMon false; CallSetTimeout 0; CallActivate;
     CallClose; CallCleanUp; pcap_close].
Proof. cbv zeta. repeat split; vm_compute; reflexivity. Qed.




(** C6 (the code differs). A session has sent one record and waits in its
    [select] with a read in flight. When the [select] then picks the done
    context or the closed shutdown channel and the read in flight does not
    return, the call does not return either: the deferred [Close] is left
    waiting for that read, nothing is released and [CleanUp] is not
    reached. The call returns [nil] only in a world where the read in
    flight returns. *)
Theorem C6_cancelled_session_waits_for_the_read :
  let first := recv_packet (packet_at 5 0) None in
  let waiting := LiveCapture (calm [first]) (request_eth0 "") in
  let cancelled := LiveCapture (calm [first; recv_Done]) (request_eth0 "") in
  let shut_down :=
    LiveCapture (calm [first; recv_shuttingDown false]) (request_eth0 "") in
  let read_returned :=
    LiveCapture (calm [first; recv_Done; recv_packet (packet_at 6 0) None])
                (request_eth0 "") in
  fst waiting = Waiting /\
  fst cancelled = Closing /\
  trace (snd cancelled) = trace (snd waiting) ++ [CallClose] /\
  releases (trace (snd cancelled)) = 0%nat /\
  fst shut_down = Closing /\
  trace (snd shut_down) = trace (snd waiting) ++ [CallClose] /\
  fst read_returned = Return None /\
  trace (snd read_returned) = trace (snd waiting) ++ teardown.
Proof. vm_compute. repeat split. Qed.

(** C7. Take a session that waits in its [select] with a read in flight.
    If the [select] then picks the read and the read carries an error, the
    call returns that error; nothing is added to the trace but the
    teardown, so the stream gets no further record and no read is started
    again, whatever would have been selected later. *)
Theorem C7_read_error_ends_the_session
  (w : World) (in_ : api.CaptureRequest) (p : packetData) (sent : error)
  (later : list Selected) (s : State) (e : string) :
  LiveCapture w in_ = (Waiting, s) ->
  err p = Some e ->
  exists s',
    LiveCapture (later_on w (recv_packet p sent :: later)) in_
    = (Return (Some e), s') /\
    trace s' = trace s ++ teardown /\
    sent_records (trace s') = sent_records (trace s) /\
    reads (trace s') = reads (trace s).
Proof.
  intros Hwait Herr.
  rewrite (LiveCapture_resume _ _ (recv_packet p sent :: later) _ Hwait).
  cbn [selected reader_after]. rewrite Herr. cbn [fst snd app].
  eexists. split; [reflexivity|]. cbn [trace].
  split; [reflexivity|]. split.
  - rewrite sent_records_app. cbn. now rewrite app_nil_r.
  - unfold reads. rewrite filter_app. cbn. now rewrite app_nil_r.
Qed.

Lemma C7_read_error_ends_the_session_witness :
  exists s',
    LiveCapture
      (later_on (calm [recv_packet (packet_at 5 0) None])
                (recv_packet (failed_read "read: network is down") None
                 :: [recv_packet (packet_at 6 0) None]))
      (request_eth0 "")
    = (Return (Some "read: network is down"), s') /\
    trace s'
    = trace (snd (LiveCapture (calm [recv_packet (packet_at 5 0) None])
                              (request_eth0 "")))
      ++ teardown /\
    sent_records (trace s')
    = sent_records
        (trace (snd (LiveCapture (calm [recv_packet (packet_at 5 0) None])
                                 (request_eth0 "")))) /\
    reads (trace s')
    = reads (trace (snd (LiveCapture (calm [recv_packet (packet_at 5 0) None])
                                     (request_eth0 "")))).
Proof.
  apply (C7_read_error_ends_the_session
           (calm [recv_packet (packet_at 5 0) None]) (request_eth0 "")
           (failed_read "read: network is down") None
           [recv_packet (packet_at 6 0) None]
           (snd (LiveCapture (calm [recv_packet (packet_at 5 0) None])
                             (request_eth0 "")))
           "read: network is down").
  - vm_compute. reflexivity.
  - reflexivity.
Defined.


(** * Further properties of the interface enumeration *)

Lemma resultInterface_of_heading (iface : net.Interface) :
  heading (resultInterface_of iface) = heading_of iface.
Proof.
  unfold heading, heading_of, resultInterface_of.
  destruct (addr_loop_fields (fst (net.Addrs iface))
    (api.mkInterface (net.Name iface) (isUp iface)
       [api.mkAddress (net.HardwareAddr_String (net.HardwareAddr_ iface))]
       [] [])) as (Hn & Hu & He & _).
  cbv zeta in Hn, Hu, He. rewrite Hn, Hu, He. reflexivity.
Qed.

(** X1. Whatever the host answers, every interface of the reply is up
    unless the request asked for all interfaces; with [All = false] the
    reply never has an interface that is down. *)
Theorem X1_down_interfaces_only_on_request
  (host : list net.Interface * error) (in_ : api.InterfaceListRequest) :
  Forall (fun r => api.Up r = true \/ api.All in_ = true)
         (api.Interfaces (fst (InterfaceList host in_))).
Proof.
  destruct host as [interfaces [e|]]; [constructor|].
  rewrite InterfaceList_ok. cbn [fst api.Interfaces].
  apply Forall_forall. intros r Hr.
  apply in_map_iff in Hr as (iface & <- & Hin).
  apply filter_In in Hin as (_ & Hlisted).
  pose proof (resultInterface_of_heading iface) as Hh.
  unfold heading, heading_of in Hh. injection Hh as _ Hup _.
  rewrite Hup. unfold listed in Hlisted.
  apply orb_true_iff in Hlisted. exact Hlisted.
Qed.

(** X2. When the host query succeeds, the reply lists exactly the host
    interfaces that are up or asked for, in host order, each with the
    host's name, its up flag and exactly one hardware-address entry, the
    text of the hardware address (the empty text for an empty address).
    With [All = true] every host interface is listed. *)
Theorem X2_reply_follows_host_order :
  (forall interfaces in_,
      map heading (api.Interfaces (fst (InterfaceList (interfaces, None) in_)))
      = map heading_of (filter (listed in_) interfaces)) /\
  (forall interfaces,
      map heading
          (api.Interfaces
             (fst (InterfaceList (interfaces, None) (api.mkInterfaceListRequest true))))
      = map heading_of interfaces).
Proof.
  assert (H : forall interfaces in_,
      map heading (api.Interfaces (fst (InterfaceList (interfaces, None) in_)))
      = map heading_of (filter (listed in_) interfaces)).
  { intros interfaces in_. rewrite InterfaceList_ok. cbn [fst api.Interfaces].
    rewrite map_map. apply map_ext. apply resultInterface_of_heading. }
  split; [exact H|].
  intros interfaces. rewrite H. f_equal.
  induction interfaces as [|iface interfaces IH]; [reflexivity|].
  cbn [filter]. unfold listed at 1. cbn [api.All].
  rewrite orb_true_r. now rewrite IH.
Qed.

(** The first piece of a split has no separator in it, and the text is
    that piece alone or that piece, the separator and more. *)
Lemma Split_head (sep : ascii) (s : string) :
  let piece := hd EmptyString (strings.Split s sep) in
  contains sep piece = false /\
  (s = piece \/ exists more, s = (piece ++ String sep more)%string).
Proof.
  induction s as [|c s IH]; cbn zeta.
  - cbn. auto.
  - cbn [strings.Split]. destruct (Ascii.eqb c sep) eqn:Hc.
    + apply Ascii.eqb_eq in Hc as ->. cbn. split; [reflexivity|].
      right. now exists s.
    + cbv zeta in IH. destruct (strings.Split s sep) as [|piece pieces].
      * cbn in IH |- *. rewrite Hc. destruct IH as (_ & [->|(more & ->)]).
        -- auto.
        -- split; [reflexivity|]. right. now exists more.
      * cbn in IH |- *. rewrite Hc. destruct IH as (Hno & [->|(more & ->)]).
        -- auto.
        -- split; [assumption|]. right. now exists more.
Qed.

(** X3. No IP address text of a listed interface contains a slash: the
    handler lists the text before the first slash of what the host gave. *)
Theorem X3_listed_addresses_have_no_slash (iface : net.Interface) :
  Forall (fun text => contains "/" text = false)
         (listed_texts (resultInterface_of iface)) /\
  Forall (fun addr =>
            net.Addr_String addr = address_of addr \/
            exists more,
              net.Addr_String addr = (address_of addr ++ String "/" more)%string)
         (fst (net.Addrs iface)).
Proof.
  split.
  - unfold listed_texts, resultInterface_of.
    destruct (addr_loop_fields (fst (net.Addrs iface))
      (api.mkInterface (net.Name iface) (isUp iface)
         [api.mkAddress (net.HardwareAddr_String (net.HardwareAddr_ iface))]
         [] [])) as (_ & _ & _ & H4 & H6).
    cbv zeta in H4, H6. rewrite H4, H6. cbn [api.Ipv4Addresses api.Ipv6Addresses app].
    apply Forall_forall. intros text Ht.
    apply in_map_iff in Ht as (a & <- & Ha).
    apply in_app_or in Ha as [Ha|Ha];
      apply in_map_iff in Ha as (t & <- & Ht);
      apply filter_In in Ht as (Ht & _);
      apply in_map_iff in Ht as (addr & <- & _);
      apply (Split_head "/" (net.Addr_String addr)).
  - apply Forall_forall. intros addr _.
    apply (Split_head "/" (net.Addr_String addr)).
Qed.

Lemma filter_split_length {A} (f : A -> bool) (l : list A) :
  (List.length (filter f l) + List.length (filter (fun a => negb (f a)) l)
   = List.length l)%nat.
Proof.
  induction l as [|a l IH]; [reflexivity|].
  cbn. destruct (f a); cbn; lia.
Qed.

(** X4. Every address the host reports for an interface is listed exactly
    once, in one of the two lists: the IPv4 and the IPv6 list together have
    as many entries as the host gave addresses, and each stripped host
    address is among them. Nothing is dropped, not even a text that is no
    IP address. *)
Theorem X4_every_host_address_is_listed (iface : net.Interface) :
  (List.length (api.Ipv4Addresses (resultInterface_of iface))
   + List.length (api.Ipv6Addresses (resultInterface_of iface))
   = List.length (fst (net.Addrs iface)))%nat /\
  Forall (fun addr => In (address_of addr) (listed_texts (resultInterface_of iface)))
         (fst (net.Addrs iface)).
Proof.
  unfold listed_texts, resultInterface_of.
  destruct (addr_loop_fields (fst (net.Addrs iface))
    (api.mkInterface (net.Name iface) (isUp iface)
       [api.mkAddress (net.HardwareAddr_String (net.HardwareAddr_ iface))]
       [] [])) as (_ & _ & _ & H4 & H6).
  cbv zeta in H4, H6. rewrite H4, H6. cbn [api.Ipv4Addresses api.Ipv6Addresses app].
  split.
  - rewrite !length_map. rewrite filter_split_length. apply length_map.
  - apply Forall_forall. intros addr Hin.
    rewrite map_app, !map_map. cbn [api.Value]. rewrite !map_id.
    apply in_or_app.
    destruct (has_To4 (address_of addr)) eqn:H; [left|right];
      apply filter_In; (split; [now apply in_map|]); now rewrite H.
Qed.

(** * Further properties of the capture session *)

Lemma acquisitions_app (t u : list Event) :
  acquisitions (t ++ u) = (acquisitions t + acquisitions u)%nat.
Proof. unfold acquisitions. now rewrite filter_app, length_app. Qed.

Lemma releases_app (t u : list Event) :
  releases (t ++ u) = (releases t + releases u)%nat.
Proof. unfold releases. now rewrite filter_app, length_app. Qed.

Lemma reads_app (t u : list Event) : reads (t ++ u) = (reads t + reads u)%nat.
Proof. unfold reads. now rewrite filter_app, length_app. Qed.

Lemma selected_no_resource_event (sels : list Selected) :
  acquisitions (CallReadPacketData :: fst (selected sels)) = 0%nat /\
  releases (CallReadPacketData :: fst (selected sels)) = 0%nat.
Proof.
  pose proof (selected_stream_events sels) as H.
  unfold acquisitions, releases. cbn [filter is_pcap_create is_pcap_close].
  rewrite (filter_late is_pcap_create), (stream_event_no_release _ H);
    [auto| |now apply stream_event_late].
  now intros [].
Qed.

Ltac unfold_open_in H :=
  unfold LiveCapture_open, pcap.NewInactiveHandle, pcap.SetImmediateMode,
    pcap.SetSnapLen, pcap.SetBufferSize, pcap.SetPromisc, pcap.SetRFMon,
    pcap.SetTimeout, pcap.Activate, pcap.SetBPFFilter, pcap.setter in H;
  cbn [w_NewInactiveHandle w_SetImmediateMode w_SetSnapLen w_SetBufferSize
       w_SetPromisc w_SetRFMon w_SetTimeout w_Activate w_SetBPFFilter] in H.

(** Case analysis on the world for a call that does not reach its loop. *)
Ltac without_loop Hopen :=
  match type of Hopen with
  | LiveCapture_open ?w ?in_ initial = _ =>
      destruct w as [wa wb wc wd we wf wg wh wi wsels];
      unfold_open_in Hopen;
      destruct (0 <? String.length (api.Filter in_))%nat eqn:Hfilter;
      destruct wa, wb, wc, wd, we, wf, wg, wh, wi;
      cbn in Hopen; inversion Hopen; subst; clear Hopen
  end.

(** X5. A call never acquires the capture resource twice and never
    releases more often than it acquired: no double close, and no close of
    a resource that was not created. *)
Theorem X5_no_double_release (w : World) (in_ : api.CaptureRequest) :
  (acquisitions (trace (snd (LiveCapture w in_))) <= 1)%nat /\
  (releases (trace (snd (LiveCapture w in_)))
   <= acquisitions (trace (snd (LiveCapture w in_))))%nat.
Proof.
  destruct (LiveCapture_open w in_ initial) as [[h|x] s0] eqn:Hopen.
  - rewrite (LiveCapture_through_loop _ _ _ _ Hopen). cbn [finish].
    pose proof (open_result _ _ _ _ Hopen) as (_ & _ & _ & _ & Hacq & Hrel).
    destruct (selected_no_resource_event (w_select w)) as (Ha & Hr).
    destruct (snd (selected (w_select w)));
      destruct (reader_after (w_select w)) as [|[|]]; cbn [snd trace];
      rewrite ?acquisitions_app, ?releases_app, Hacq, Hrel, Ha, Hr; cbn; lia.
  - rewrite (LiveCapture_without_loop _ _ _ _ Hopen).
    without_loop Hopen; cbn; lia.
Qed.

(** Evaluate the statements before the loop, once the answers they ask
    for are known. *)
Ltac eval_open :=
  match goal with
  | |- context [finish ?r ?sels] =>
      let v := eval lazy -[Z.eqb String.append String.length Nat.ltb] in r in
      change (finish r sels) with (finish v sels)
  end;
  cbn [finish].

(** Case analysis on the answers of the world to the statements before
    the loop, in the goal, in the order in which the statements ask for
    them; [leaf] is run where the statements have come to their end. *)
Ltac by_world w in_ leaf :=
  rewrite ?LiveCapture_finish;
  destruct w as [wa wb wc wd we wf wg wh wi wsels];
  try unfold rfmon_accepted;
  unfold LiveCapture_open;
  cbn [w_NewInactiveHandle w_SetImmediateMode w_SetSnapLen w_SetBufferSize
       w_SetPromisc w_SetRFMon w_SetTimeout w_Activate w_SetBPFFilter w_select];
  destruct wa; [eval_open; leaf|];
  destruct wb; [eval_open; leaf|];
  destruct wc; [eval_open; leaf|];
  destruct wd; [eval_open; leaf|];
  destruct we; [eval_open; leaf|];
  destruct wf;
    (destruct wg; [eval_open; leaf|];
     destruct (0 <? String.length (api.Filter in_))%nat eqn:Hfilter;
     destruct wh, wi; eval_open; leaf).

(** A filter that rejects reads and sends sees nothing of the loop. *)
Lemma filter_selected (f : Event -> bool) (sels : list Selected) :
  (forall e, stream_event e = true -> f e = false) ->
  filter f (fst (selected sels)) = [].
Proof.
  intros Hf. pose proof (selected_stream_events sels) as H.
  induction (fst (selected sels)) as [|e evs IH]; [reflexivity|].
  cbn in H |- *. apply andb_true_iff in H as [He Hevs].
  rewrite (Hf e He). auto.
Qed.

Lemma selected_no_create (sels : list Selected) :
  filter is_pcap_create (fst (selected sels)) = [].
Proof. apply filter_selected. now intros []. Qed.

Lemma selected_no_close (sels : list Selected) :
  filter is_pcap_close (fst (selected sels)) = [].
Proof. apply filter_selected. now intros []. Qed.

(** X6. A call that returns, other than by a filter that failed to
    compile, has acquired the capture resource exactly once and released it
    exactly once. *)
Theorem X6_returning_call_releases_once
  (w : World) (in_ : api.CaptureRequest) (e : error) :
  fst (LiveCapture w in_) = Return e ->
  api.Filter in_ = EmptyString \/ w_SetBPFFilter w = None ->
  acquisitions (trace (snd (LiveCapture w in_))) = 1%nat /\
  releases (trace (snd (LiveCapture w in_))) = 1%nat.
Proof.
  intros Hret Hfil. revert Hret Hfil.
  by_world w in_
    ltac:(try (destruct (snd (selected wsels));
               destruct (reader_after wsels) as [|[|]]);
          cbn; intros Hret Hfil; try discriminate Hret;
          try (destruct Hfil as [Hfil|Hfil];
               [rewrite Hfil in Hfilter; discriminate Hfilter|discriminate Hfil]);
          rewrite ?filter_app, ?selected_no_create, ?selected_no_close;
          split; reflexivity).
Qed.

(** X7. When the inactive handle cannot be created, the error is not
    handed back: [CleanUp] was deferred on the nil handle before the error
    was looked at, it panics when the call returns, and nothing else was
    called. *)
Theorem X7_create_failure_panics_in_CleanUp
  (w : World) (in_ : api.CaptureRequest) (e : string) :
  w_NewInactiveHandle w = Some e ->
  LiveCapture w in_
  = (Panic,
     mkState [CallNewInactiveHandle (api.Interface_ in_); CallCleanUp]
             false false (mkOptions None None None None None None)
             [DeferCleanUp nilptr] idle).
Proof.
  destruct w as [wa wb wc wd we wf wg wh wi wsels]. cbn. intros ->. reflexivity.
Qed.

Lemma X7_create_failure_panics_in_CleanUp_witness :
  LiveCapture
    (mkWorld (Some "eth9: No such device exists") None None None None None None
             None None [recv_Done])
    (request_eth0 "")
  = (Panic,
     mkState [CallNewInactiveHandle "eth0"; CallCleanUp]
             false false (mkOptions None None None None None None)
             [DeferCleanUp nilptr] idle).
Proof.
  exact (X7_create_failure_panics_in_CleanUp
           (mkWorld (Some "eth9: No such device exists") None None None None None
                    None None None [recv_Done])
           (request_eth0 "") "eth9: No such device exists" eq_refl).
Defined.

(** X8. When the handle is created and one of the settings immediate
    mode, snapshot length, buffer size, promiscuous mode or read timeout is
    refused, the call returns the error of the first refused one; the
    handle is never activated, nothing is read or sent, and the resource,
    acquired once, is released once. *)
Theorem X8_first_refused_setting_is_returned
  (w : World) (in_ : api.CaptureRequest) (e : string) :
  w_NewInactiveHandle w = None ->
  first_setting_error w = Some e ->
  fst (LiveCapture w in_) = Return (Some e) /\
  filter is_Activate (trace (snd (LiveCapture w in_))) = [] /\
  filter stream_event (trace (snd (LiveCapture w in_))) = [] /\
  acquisitions (trace (snd (LiveCapture w in_))) = 1%nat /\
  releases (trace (snd (LiveCapture w in_))) = 1%nat.
Proof.
  intros Hnew Herr. revert Hnew Herr. unfold first_setting_error.
  by_world w in_
    ltac:(cbn [w_NewInactiveHandle w_SetImmediateMode w_SetSnapLen
               w_SetBufferSize w_SetPromisc w_SetTimeout];
          intros Hnew Herr; try discriminate Hnew; try discriminate Herr;
          injection Herr as ->; cbn; repeat split; reflexivity).
Qed.

Lemma X8_first_refused_setting_is_returned_witness :
  let w := mkWorld None None (Some "snaplen refused") None
                   (Some "promisc refused") None None None None [recv_Done] in
  fst (LiveCapture w (request_eth0 "")) = Return (Some "snaplen refused") /\
  filter is_Activate (trace (snd (LiveCapture w (request_eth0 "")))) = [] /\
  filter stream_event (trace (snd (LiveCapture w (request_eth0 "")))) = [] /\
  acquisitions (trace (snd (LiveCapture w (request_eth0 "")))) = 1%nat /\
  releases (trace (snd (LiveCapture w (request_eth0 "")))) = 1%nat.
Proof.
  exact (X8_first_refused_setting_is_returned
           (mkWorld None None (Some "snaplen refused") None
                    (Some "promisc refused") None None None None [recv_Done])
           (request_eth0 "") "snaplen refused" eq_refl eq_refl).
Defined.

Lemma X6_returning_call_releases_once_witness :
  acquisitions
    (trace (snd (LiveCapture (calm [recv_Done; delivered (packet_at 6 0)])
                             (request_eth0 "udp"))))
  = 1%nat /\
  releases
    (trace (snd (LiveCapture (calm [recv_Done; delivered (packet_at 6 0)])
                             (request_eth0 "udp"))))
  = 1%nat.
Proof.
  apply (X6_returning_call_releases_once
           (calm [recv_Done; delivered (packet_at 6 0)]) (request_eth0 "udp") None).
  - vm_compute. reflexivity.
  - right. reflexivity.
Defined.

Lemma filter_selected_all (f : Event -> bool) (sels : list Selected) :
  (forall e, stream_event e = true -> f e = true) ->
  filter f (fst (selected sels)) = fst (selected sels).
Proof.
  intros Hf. pose proof (selected_stream_events sels) as H.
  induction (fst (selected sels)) as [|e evs IH]; [reflexivity|].
  cbn in H |- *. apply andb_true_iff in H as [He Hevs].
  rewrite (Hf e He). f_equal. auto.
Qed.

Lemma selected_not_log (sels : list Selected) :
  filter not_log (fst (selected sels)) = fst (selected sels).
Proof. apply filter_selected_all. now intros []. Qed.

(** X9. A refused monitor mode is not fatal: the call ends the same way
    as on a device that accepts the request, and apart from the one log
    line its trace is the same, call for call. *)
Theorem X9_refused_monitor_mode_only_logs (w : World) (in_ : api.CaptureRequest) :
  fst (LiveCapture w in_) = fst (LiveCapture (rfmon_accepted w) in_) /\
  filter not_log (trace (snd (LiveCapture w in_)))
  = trace (snd (LiveCapture (rfmon_accepted w) in_)).
Proof.
  by_world w in_
    ltac:(try eval_open;
          try (destruct (snd (selected wsels));
               destruct (reader_after wsels) as [|[|]]);
          cbn; rewrite ?filter_app, ?selected_not_log; split; reflexivity).
Qed.

(** X10. A request that leaves the buffer size at 0 is served exactly as
    a request for 4 MiB (4194304 bytes). *)
Theorem X10_default_buffer_size
  (w : World) (in_ : api.CaptureRequest) :
  api.BufferSizeBytes in_ = 0 ->
  LiveCapture w in_ = LiveCapture w (with_BufferSizeBytes in_ 4194304).
Proof.
  destruct in_ as [dev fil snap buf promisc rfmon imm tmo]. cbn. intros ->.
  reflexivity.
Qed.

Lemma X10_default_buffer_size_witness :
  LiveCapture (calm [delivered (packet_at 5 0); recv_Done]) (request_eth0 "udp")
  = LiveCapture (calm [delivered (packet_at 5 0); recv_Done])
                (with_BufferSizeBytes (request_eth0 "udp") 4194304).
Proof.
  exact (X10_default_buffer_size
           (calm [delivered (packet_at 5 0); recv_Done]) (request_eth0 "udp")
           eq_refl).
Defined.

(** X11. The filter is handed to [SetBPFFilter] at most once, with the
    expression of the request, and exactly when the expression is not
    empty, the handle was created and no setting was refused; an empty
    expression is never compiled. *)
Theorem X11_filter_is_set_at_most_once (w : World) (in_ : api.CaptureRequest) :
  filter is_SetBPFFilter (trace (snd (LiveCapture w in_)))
  = if is_none (w_NewInactiveHandle w) && is_none (first_setting_error w)
       && (0 <? String.length (api.Filter in_))%nat
    then [CallSetBPFFilter (api.Filter in_)]
    else [].
Proof.
  unfold first_setting_error.
  by_world w in_
    ltac:(try (destruct (snd (selected wsels));
               destruct (reader_after wsels) as [|[|]]);
          cbn; rewrite ?filter_app, ?(filter_selected is_SetBPFFilter);
          try reflexivity; now intros []).
Qed.

(** X12. A call panics in exactly two situations: the inactive handle
    could not be created, or every setting was accepted and [Activate]
    failed. In particular a call that reaches its loop never panics. *)
Theorem X12_when_a_call_panics (w : World) (in_ : api.CaptureRequest) :
  fst (LiveCapture w in_) = Panic <->
  (w_NewInactiveHandle w <> None \/
   (first_setting_error w = None /\ w_Activate w <> None)).
Proof.
  unfold first_setting_error.
  by_world w in_
    ltac:(cbn; split;
          [ intros H; try discriminate H;
            try (left; discriminate);
            try (right; split; [reflexivity|discriminate]);
            exfalso; apply (selected_no_panic wsels);
            destruct (snd (selected wsels));
            destruct (reader_after wsels) as [|[|]];
            (discriminate H || reflexivity)
          | intros [H|[H1 H2]]; try congruence; try reflexivity;
            try discriminate H1 ]).
Qed.

(** ** Going on from a waiting session *)

Lemma later_on_later_on (w : World) (l1 l2 : list Selected) :
  later_on (later_on w l1) l2 = later_on w (l1 ++ l2).
Proof. unfold later_on. cbn. now rewrite app_assoc. Qed.

Lemma selected_delivered (ps : list packetData) :
  Forall (fun p => err p = None) ps ->
  selected (map delivered ps) = (delivery_events ps, Waiting).
Proof.
  induction 1 as [|p ps Hp _ IH]; [reflexivity|].
  cbn [map]. unfold delivered at 1. cbn [selected]. rewrite Hp, IH. reflexivity.
Qed.

Lemma delivery_events_sent (ps : list packetData) :
  sent_records (delivery_events ps) = map framePacket ps /\
  reads (delivery_events ps) = List.length ps.
Proof.
  induction ps as [|p ps [IHs IHr]]; [split; reflexivity|].
  change (delivery_events (p :: ps))
    with (StreamSend (framePacket p) :: CallReadPacketData :: delivery_events ps).
  unfold reads in *. cbn [sent_records filter is_read List.length map].
  rewrite IHs, IHr. split; reflexivity.
Qed.

(** X13. Records leave in the order of the reads, one record per read:
    when a waiting session gets a run of reads that all succeed and whose
    records the stream accepts, it sends exactly the records of these
    packets, in that order, starts one new read after each, and is waiting
    again. *)
Theorem X13_records_follow_the_reads
  (w : World) (in_ : api.CaptureRequest) (ps : list packetData) (s : State) :
  LiveCapture w in_ = (Waiting, s) ->
  Forall (fun p => err p = None) ps ->
  exists s',
    LiveCapture (later_on w (map delivered ps)) in_ = (Waiting, s') /\
    trace s' = trace s ++ delivery_events ps /\
    sent_records (trace s') = sent_records (trace s) ++ map framePacket ps /\
    reads (trace s') = (reads (trace s) + List.length ps)%nat.
Proof.
  intros Hwait Hps.
  rewrite (LiveCapture_resume _ _ (map delivered ps) _ Hwait).
  rewrite (selected_delivered _ Hps). cbn [fst snd].
  destruct (delivery_events_sent ps) as (Hs & Hr).
  eexists. split; [reflexivity|]. cbn [trace].
  split; [reflexivity|]. split.
  - now rewrite sent_records_app, Hs.
  - now rewrite reads_app, Hr.
Qed.

Lemma X13_records_follow_the_reads_witness :
  exists s',
    LiveCapture (later_on (calm [])
                          (map delivered [packet_at 5 0; packet_at 5 2000; packet_at 6 0]))
                (request_eth0 "")
    = (Waiting, s') /\
    trace s'
    = trace (snd (LiveCapture (calm []) (request_eth0 "")))
      ++ delivery_events [packet_at 5 0; packet_at 5 2000; packet_at 6 0] /\
    sent_records (trace s')
    = sent_records (trace (snd (LiveCapture (calm []) (request_eth0 ""))))
      ++ map framePacket [packet_at 5 0; packet_at 5 2000; packet_at 6 0] /\
    reads (trace s')
    = (reads (trace (snd (LiveCapture (calm []) (request_eth0 ""))))
       + List.length [packet_at 5 0; packet_at 5 2000; packet_at 6 0])%nat.
Proof.
  apply (X13_records_follow_the_reads
           (calm []) (request_eth0 "")
           [packet_at 5 0; packet_at 5 2000; packet_at 6 0]
           (snd (LiveCapture (calm []) (request_eth0 "")))).
  - vm_compute. reflexivity.
  - repeat constructor.
Defined.

(** X14. When the stream refuses a record, the call returns the error of
    the send: the record was handed to the stream once, no further read is
    started and no further record sent, and the teardown follows. *)
Theorem X14_send_error_ends_the_session
  (w : World) (in_ : api.CaptureRequest) (p : packetData) (e : string)
  (later : list Selected) (s : State) :
  LiveCapture w in_ = (Waiting, s) ->
  err p = None ->
  exists s',
    LiveCapture (later_on w (recv_packet p (Some e) :: later)) in_
    = (Return (Some e), s') /\
    trace s' = trace s ++ StreamSend (framePacket p) :: teardown.
Proof.
  intros Hwait Hp.
  rewrite (LiveCapture_resume _ _ (recv_packet p (Some e) :: later) _ Hwait).
  cbn [selected reader_after]. rewrite Hp. cbn [fst snd].
  eexists. split; reflexivity.
Qed.

Lemma X14_send_error_ends_the_session_witness :
  exists s',
    LiveCapture
      (later_on (calm [delivered (packet_at 5 0)])
                (recv_packet (packet_at 6 0) (Some "rpc error: transport is closing")
                 :: [delivered (packet_at 7 0)]))
      (request_eth0 "")
    = (Return (Some "rpc error: transport is closing"), s') /\
    trace s'
    = trace (snd (LiveCapture (calm [delivered (packet_at 5 0)]) (request_eth0 "")))
      ++ StreamSend (framePacket (packet_at 6 0)) :: teardown.
Proof.
  apply (X14_send_error_ends_the_session
           (calm [delivered (packet_at 5 0)]) (request_eth0 "")
           (packet_at 6 0) "rpc error: transport is closing"
           [delivered (packet_at 7 0)]
           (snd (LiveCapture (calm [delivered (packet_at 5 0)]) (request_eth0 "")))).
  - vm_compute. reflexivity.
  - reflexivity.
Defined.

(** X15. A value received from the shutdown channel, as opposed to the
    channel being closed, does not end the session: the loop starts the
    next read and waits again, and nothing is sent. *)
Theorem X15_shutdown_value_does_not_stop
  (w : World) (in_ : api.CaptureRequest) (s : State) :
  LiveCapture w in_ = (Waiting, s) ->
  exists s',
    LiveCapture (later_on w [recv_shuttingDown true]) in_ = (Waiting, s') /\
    trace s' = trace s ++ [CallReadPacketData].
Proof.
  intros Hwait.
  rewrite (LiveCapture_resume _ _ [recv_shuttingDown true] _ Hwait).
  cbn. eexists. split; reflexivity.
Qed.

Lemma X15_shutdown_value_does_not_stop_witness :
  exists s',
    LiveCapture (later_on (calm []) [recv_shuttingDown true]) (request_eth0 "")
    = (Waiting, s') /\
    trace s'
    = trace (snd (LiveCapture (calm []) (request_eth0 ""))) ++ [CallReadPacketData].
Proof.
  apply (X15_shutdown_value_does_not_stop
           (calm []) (request_eth0 "")
           (snd (LiveCapture (calm []) (request_eth0 "")))).
  vm_compute. reflexivity.
Defined.

Lemma selected_counts (sels : list Selected) :
  (List.length (sent_records (fst (selected sels)))
   <= reads (fst (selected sels)) + 1)%nat /\
  (reads (fst (selected sels)) <= List.length sels)%nat.
Proof.
  unfold reads.
  induction sels as [|a sels [IHs IHr]]; [cbn; lia|].
  destruct a as [[|]| |p sent]; cbn; try lia.
  destruct (err p); [cbn; lia|]. destruct sent; cbn; lia.
Qed.

(** X16. A call never sends more records than it started reads, and it
    starts at most one read more than the selections it went through: one
    read per iteration, at most one record per read. *)
Theorem X16_one_read_per_iteration (w : World) (in_ : api.CaptureRequest) :
  (List.length (sent_records (trace (snd (LiveCapture w in_))))
   <= reads (trace (snd (LiveCapture w in_))))%nat /\
  (reads (trace (snd (LiveCapture w in_))) <= List.length (w_select w) + 1)%nat.
Proof.
  by_world w in_
    ltac:(try (destruct (selected_counts wsels) as (Hs & Hr);
               destruct (snd (selected wsels));
               destruct (reader_after wsels) as [|[|]]);
          unfold reads in *; cbn;
          rewrite ?sent_records_app, ?filter_app, ?length_app; cbn;
          rewrite ?app_nil_r; lia).
Qed.

Lemma selected_clean_return (sels : list Selected) :
  snd (selected sels) = Return None ->
  In (recv_shuttingDown false) sels \/ In recv_Done sels.
Proof.
  induction sels as [|a sels IH]; [discriminate|].
  destruct a as [[|]| |p sent]; cbn [selected negb snd].
  - intros H. destruct (IH H); [left|right]; now right.
  - intros _. left. now left.
  - intros _. right. now left.
  - destruct (err p); [discriminate|]. destruct sent; [discriminate|].
    cbn [snd]. intros H. destruct (IH H); [left|right]; now right.
Qed.

(** X17. A call returns [nil] only after its [select] picked the closed
    shutdown channel or the done context: every other way out of the call
    is an error or a panic. *)
Theorem X17_clean_return_means_signal (w : World) (in_ : api.CaptureRequest) :
  fst (LiveCapture w in_) = Return None ->
  In (recv_shuttingDown false) (w_select w) \/ In recv_Done (w_select w).
Proof.
  by_world w in_
    ltac:(try (pose proof (selected_clean_return wsels) as Hsel;
               destruct (snd (selected wsels)) as [[e|]| | |];
               destruct (reader_after wsels) as [|[|]]);
          cbn; intros H; try discriminate H; now apply Hsel).
Qed.

Lemma X17_clean_return_means_signal_witness :
  In (recv_shuttingDown false)
     (w_select (calm [delivered (packet_at 5 0); recv_shuttingDown false;
                      delivered (packet_at 6 0)])) \/
  In recv_Done
     (w_select (calm [delivered (packet_at 5 0); recv_shuttingDown false;
                      delivered (packet_at 6 0)])).
Proof.
  apply (X17_clean_return_means_signal
           (calm [delivered (packet_at 5 0); recv_shuttingDown false;
                  delivered (packet_at 6 0)])
           (request_eth0 "")).
  vm_compute. reflexivity.
Defined.

(** X18. For a timestamp with a valid nanosecond count, the microseconds
    field of the record is the sub-second part in microseconds only on the
    whole second: for every other timestamp the wrapped product differs
    from the nanoseconds divided by 1000. *)
Theorem X18_microseconds_right_only_on_the_second (p : packetData) :
  time.valid (gopacket.Timestamp (ci p)) ->
  (api.Microseconds (framePacket p)
   = time.Nanosecond (gopacket.Timestamp (ci p)) / 1000
   <-> time.Nanosecond (gopacket.Timestamp (ci p)) = 0).
Proof.
  intros Hv. rewrite (framePacket_Microseconds p Hv).
  unfold time.valid in Hv.
  set (ns := time.Nanosecond (gopacket.Timestamp (ci p))) in *. clearbody ns.
  split; [|intros ->; reflexivity].
  intros H.
  pose proof (Z.div_mod (ns * 1000) (2 ^ 32) ltac:(lia)) as Hk.
  pose proof (Z.div_mod ns 1000 ltac:(lia)) as Hq.
  pose proof (Z.mod_pos_bound ns 1000 ltac:(lia)) as Hr.
  rewrite H in Hk.
  set (k := ns * 1000 / 2 ^ 32) in *.
  set (q := ns / 1000) in *.
  set (r := ns mod 1000) in *.
  clearbody k q r.
  change (2 ^ 32) with 4294967296 in *.
  lia.
Qed.

Lemma X18_microseconds_right_only_on_the_second_witness :
  api.Microseconds (framePacket (packet_at 5 0))
  = time.Nanosecond (gopacket.Timestamp (ci (packet_at 5 0))) / 1000
  <-> time.Nanosecond (gopacket.Timestamp (ci (packet_at 5 0))) = 0.
Proof.
  apply (X18_microseconds_right_only_on_the_second (packet_at 5 0)).
  unfold time.valid. cbn. lia.
Defined.

(** X19. Whenever the handle is activated and the filter of the request
    then fails to compile, the call returns the filter error with the live
    handle still holding the capture resource: [Close] is never called and
    nothing is released. *)
Theorem X19_filter_failure_never_releases
  (w : World) (in_ : api.CaptureRequest) (e : string) :
  w_NewInactiveHandle w = None ->
  first_setting_error w = None ->
  w_Activate w = None ->
  api.Filter in_ <> EmptyString ->
  w_SetBPFFilter w = Some e ->
  fst (LiveCapture w in_) = Return (Some e) /\
  handle_cptr (snd (LiveCapture w in_)) = true /\
  filter is_Close (trace (snd (LiveCapture w in_))) = [] /\
  acquisitions (trace (snd (LiveCapture w in_))) = 1%nat /\
  releases (trace (snd (LiveCapture w in_))) = 0%nat.
Proof.
  intros Hnew Hset Hact Hfil Hbpf. revert Hnew Hset Hact Hfil Hbpf.
  unfold first_setting_error.
  by_world w in_
    ltac:(cbn [w_NewInactiveHandle w_SetImmediateMode w_SetSnapLen
               w_SetBufferSize w_SetPromisc w_SetTimeout w_Activate
               w_SetBPFFilter];
          intros Hnew Hset Hact Hfil Hbpf;
          try discriminate Hnew; try discriminate Hset;
          try discriminate Hact; try discriminate Hbpf;
          try (exfalso; apply Hfil; destruct (api.Filter in_);
               [reflexivity|discriminate Hfilter]);
          injection Hbpf as ->; cbn; repeat split; reflexivity).
Qed.

Lemma X19_filter_failure_never_releases_witness :
  fst (LiveCapture filter_rejected (request_eth0 "tcp and ("))
  = Return (Some "syntax error") /\
  handle_cptr (snd (LiveCapture filter_rejected (request_eth0 "tcp and ("))) = true /\
  filter is_Close (trace (snd (LiveCapture filter_rejected (request_eth0 "tcp and (")))) = [] /\
  acquisitions (trace (snd (LiveCapture filter_rejected (request_eth0 "tcp and (")))) = 1%nat /\
  releases (trace (snd (LiveCapture filter_rejected (request_eth0 "tcp and (")))) = 0%nat.
Proof.
  apply (X19_filter_failure_never_releases
           filter_rejected (request_eth0 "tcp and (") "syntax error");
    try reflexivity. discriminate.
Defined.


(** A session that waits in its [select] has acquired the capture resource
    once and released nothing. *)
Lemma waiting_session_holds_the_resource
  (w : World) (in_ : api.CaptureRequest) (s : State) :
  LiveCapture w in_ = (Waiting, s) ->
  acquisitions (trace s) = 1%nat /\ releases (trace s) = 0%nat.
Proof.
  intros Hwait.
  destruct (LiveCapture_waiting _ _ _ Hwait) as (s0 & Hopen & _ & ->).
  pose proof (open_result _ _ _ _ Hopen) as (_ & _ & _ & _ & Hacq & Hrel).
  destruct (selected_no_resource_event (w_select w)) as (Ha & Hr).
  cbn [trace]. now rewrite acquisitions_app, releases_app, Hacq, Hrel, Ha, Hr.
Qed.

(** X20. When the [select] of a waiting session picks the closed shutdown
    channel or the done context, the loop is left at once: no record is
    sent and no read started after it. What follows is the teardown, which
    begins with [Close], and [Close] waits for the read in flight: if that
    read returns, the call returns [nil] with the resource released once;
    if it does not, the call stays in [Close] with nothing released. *)
Theorem X20_signal_leaves_the_loop_and_closes
  (w : World) (in_ : api.CaptureRequest) (sel : Selected)
  (later : list Selected) (s : State) :
  LiveCapture w in_ = (Waiting, s) ->
  sel = recv_shuttingDown false \/ sel = recv_Done ->
  exists s',
    LiveCapture (later_on w (sel :: later)) in_
    = (if read_returns later then Return None else Closing, s') /\
    trace s' = trace s ++ (if read_returns later then teardown else close_waits) /\
    sent_records (trace s') = sent_records (trace s) /\
    reads (trace s') = reads (trace s) /\
    acquisitions (trace s') = 1%nat /\
    releases (trace s') = (if read_returns later then 1 else 0)%nat.
Proof.
  intros Hwait Hsel.
  destruct (waiting_session_holds_the_resource _ _ _ Hwait) as (Hacq & Hrel).
  rewrite (LiveCapture_resume _ _ (sel :: later) _ Hwait).
  assert (Hx : selected (sel :: later) = ([], Return None))
    by (destruct Hsel; subst; reflexivity).
  assert (Hr : reader_after (sel :: later) = reading (read_returns later))
    by (destruct Hsel; subst; reflexivity).
  rewrite Hx, Hr. cbn [fst snd app].
  destruct (read_returns later); eexists; (split; [reflexivity|]); cbn [trace];
    (split; [reflexivity|]);
    rewrite sent_records_app, reads_app, acquisitions_app, releases_app, Hacq, Hrel;
    cbn; rewrite ?app_nil_r; repeat split; lia.
Qed.

Lemma X20_signal_leaves_the_loop_and_closes_witness :
  exists s',
    LiveCapture
      (later_on (calm [recv_packet (packet_at 5 0) None])
                (recv_shuttingDown false :: [recv_packet (packet_at 6 0) None]))
      (request_eth0 "")
    = (if read_returns [recv_packet (packet_at 6 0) None]
       then Return None else Closing, s') /\
    trace s'
    = trace (snd (LiveCapture (calm [recv_packet (packet_at 5 0) None])
                              (request_eth0 "")))
      ++ (if read_returns [recv_packet (packet_at 6 0) None]
          then teardown else close_waits) /\
    sent_records (trace s')
    = sent_records
        (trace (snd (LiveCapture (calm [recv_packet (packet_at 5 0) None])
                                 (request_eth0 "")))) /\
    reads (trace s')
    = reads (trace (snd (LiveCapture (calm [recv_packet (packet_at 5 0) None])
                                     (request_eth0 "")))) /\
    acquisitions (trace s') = 1%nat /\
    releases (trace s')
    = (if read_returns [recv_packet (packet_at 6 0) None] then 1 else 0)%nat.
Proof.
  apply (X20_signal_leaves_the_loop_and_closes
           (calm [recv_packet (packet_at 5 0) None]) (request_eth0 "")
           (recv_shuttingDown false) [recv_packet (packet_at 6 0) None]
           (snd (LiveCapture (calm [recv_packet (packet_at 5 0) None])
                             (request_eth0 "")))).
  - vm_compute. reflexivity.
  - left. reflexivity.
Defined.
